(** * Versioning coordination logic of the Dolt plugin for Nautobot

    A shallow embedding of [dolt/middleware.py], [dolt/routers.py],
    [dolt/diffs.py] and [nautobot_dolt/models.py], with the properties the
    specification states about them.

    Conventions.
    - Python strings are [string]; dictionaries with string keys are
      [gmap string _]; Python sets are [gset _]; lists are [list _].
    - A function that can raise returns a [result]; a method that mutates
      [self] returns the new state, paired with its outcome where it can
      raise after having mutated.
    - The web framework (signals, ORM, request objects) and the SQL engine are
      not code of this repository: their state is carried as data (receiver
      lists, tables) and their calls follow the framework's documented
      behaviour, stated next to each definition. *)

From Stdlib Require Import ZArith String Ascii List Sorted Permutation Lia.
From stdpp Require Import base option list gmap strings.

Local Open Scope string_scope.
Local Open Scope list_scope.
Local Open Scope Z_scope.

(** ** Python-level helpers *)

Module Py.

(** The double-quote and newline characters of the source's literals. *)
Definition dquote : string := String (ascii_of_nat 34) EmptyString.
Definition newline : string := String (ascii_of_nat 10) EmptyString.

(** [needle in hay] on Python strings. *)
Fixpoint contains (needle hay : string) : bool :=
  String.prefix needle hay
  || match hay with
     | EmptyString => false
     | String _ hay' => contains needle hay'
     end.

(** [sep.join(parts)]. *)
Fixpoint join (sep : string) (parts : list string) : string :=
  match parts with
  | [] => ""
  | [p] => p
  | p :: rest => p +:+ sep +:+ join sep rest
  end.

(** Exceptions by class; the payload is the message. *)
Inductive exn :=
| ValueError (msg : string)
| KeyError (key : string)
| AttributeError (msg : string)
| ObjectDoesNotExist
| DoltError (msg : string)
| ProgrammingError (msg : string).

Inductive result (A : Type) :=
| Ok (a : A)
| Raise (e : exn).
Arguments Ok {A} a.
Arguments Raise {A} e.

Definition bind {A B} (r : result A) (k : A -> result B) : result B :=
  match r with
  | Ok a => k a
  | Raise e => Raise e
  end.

(** [sorted(l, key=key)]: ascending and stable. Each element is put in
    front of the first later element whose key is not smaller. *)
Fixpoint insert_by {A} (key : A -> Z) (x : A) (l : list A) : list A :=
  match l with
  | [] => [x]
  | y :: l' => if key x <=? key y then x :: y :: l' else y :: insert_by key x l'
  end.

Definition sorted {A} (key : A -> Z) (l : list A) : list A :=
  foldr (insert_by key) [] l.

(** The order [sorted] establishes. *)
Definition key_le {A} (key : A -> Z) (a b : A) : Prop := key a <= key b.

(** An iterator is the list of the items it has not yet produced. A set
    comprehension over it produces the set and leaves the iterator
    exhausted. *)
Definition iterator (A : Type) := list A.

(** [filter(f, l)]: the sources are Python 3 (they use f-strings), where
    [filter] returns an iterator and not a list. *)
Definition filter_iter {A} (f : A -> bool) (l : list A) : iterator A :=
  List.filter f l.

Definition set_comprehension {A} `{Countable B} (f : A -> B) (it : iterator A)
  : gset B * iterator A :=
  (list_to_set (List.map f it), []).

(** A string that can be spliced between single quotes into the text of
    a statement without moving the end of the literal: it holds no single
    quote and no backslash. *)
Fixpoint plain (s : string) : bool :=
  match s with
  | EmptyString => true
  | String c s' =>
      negb (Ascii.eqb c (ascii_of_nat 39))
      && negb (Ascii.eqb c (ascii_of_nat 92))
      && plain s'
  end.

(** A string that can be spliced into the name of a table: letters,
    digits and underscores only. *)
Definition identifier_char (c : ascii) : bool :=
  let n := nat_of_ascii c in
  ((48 <=? n) && (n <=? 57) || (65 <=? n) && (n <=? 90)
   || (97 <=? n) && (n <=? 122) || (n =? 95))%nat.

Fixpoint identifier (s : string) : bool :=
  match s with
  | EmptyString => true
  | String c s' => identifier_char c && identifier s'
  end.

(** The values that travel in the keyword arguments of a signal. *)
Inductive value :=
| VNone
| VBool (b : bool)
| VStr (s : string)
| VSet (s : gset Z).

(** Truth value of an object in a condition. *)
Definition truthy (v : value) : bool :=
  match v with
  | VNone => false
  | VBool b => b
  | VStr s => negb (String.eqb s "")
  | VSet s => negb (bool_decide (s = ∅))
  end.

End Py.

(** The error monad, in stdpp's notation [x ← c; k]. *)
#[export] Instance result_ret : MRet Py.result := fun _ a => Py.Ok a.
#[export] Instance result_bind : MBind Py.result := fun _ _ k r => Py.bind r k.

(** ** Model classes, constants and helpers imported by the sources *)

(** A Django model class, by the attributes the sources read:
    [model.__name__], [model._meta.app_label], [model._meta.verbose_name]
    and [model._meta.db_table]. *)
Record Model := {
  model_name : string;
  app_label : string;
  verbose_name : string;
  db_table : string;
}.

#[export] Instance Model_eq_dec : EqDecision Model.
Proof. solve_decision. Defined.

(** [dolt/constants.py] is not among the sources: its constants are taken
    as parameters. *)
Class Constants := {
  DOLT_BRANCH_KEYWORD : string;
  DOLT_DEFAULT_BRANCH : string;
  GLOBAL_DB : string;
}.

(** [dolt/utils.py], [dolt/__init__.py] and the change-logging model of the
    host application are not among the sources: the helpers the sources call
    are taken as parameters. *)
Class Utils := {
  is_dolt_model : Model -> bool;
  is_versioned_model : Model -> bool;
  ObjectChange : Model;
  (** the diff table class registered for a model, by name *)
  diff_table_for_model : Model -> option string;
}.

(** ** [nautobot_dolt/models.py] *)

Module Models.

(** A row of [dolt_branches]. *)
Record Branch := {
  name : string;
  hash : string;
  latest_committer : string;
  latest_committer_email : string;
  latest_commit_date : string;
  latest_commit_message : string;
}.

(** [Branch.objects.get(pk=...)]: the row whose primary key [name] is
    [pk], [ObjectDoesNotExist] when there is none. *)
Definition Branch_objects_get (dolt_branches : list Branch) (pk : string)
  : Py.result Branch :=
  match List.find (fun b => String.eqb (name b) pk) dolt_branches with
  | Some b => Py.Ok b
  | None => Py.Raise Py.ObjectDoesNotExist
  end.

(** One invocation of the engine's [dolt_commit] function. *)
Record DoltCommit := {
  flags : list string;
  message : string;
  author : string;
}.

(** The SQL engine is not code of this repository. A statement whose
    spliced values are plain is executed as it was written. What the engine
    makes of a statement whose text a spliced value has changed (an error,
    or the execution of something else) is a parameter: from the text of the
    statement, the engine's exception or what it executed. *)
Class Engine := {
  broken_commit : string -> Py.result (list DoltCommit);
  broken_union : string -> Py.result (list (string * string * Z));
}.

(** The text between the message and the author in the statement of
    [Commit.save]. *)
Definition author_separator : string :=
  "'," +:+ Py.newline +:+ "                '--author', '".

(** The text of the statement [Commit.save] executes. *)
Definition dolt_commit (message author : string) : string :=
  Py.newline +:+ "            SELECT dolt_commit(" +:+ Py.newline
    +:+ "                '--all', " +:+ Py.newline
    +:+ "                '--force'," +:+ Py.newline
    +:+ "                '--allow-empty'," +:+ Py.newline
    +:+ "                '--message', '" +:+ message +:+ author_separator +:+ author
    +:+ "')" +:+ Py.newline
    +:+ "            FROM dual" +:+ Py.newline
    +:+ "            ;".

(** [Commit.save], as [nautobot_dolt/models.py] has it ([middleware.py]
    imports [Commit] from [dolt.models], which is not among the sources;
    this is the only [Commit.save] under them). Without an [author] the
    fixed identity is used; [branch] and [user] passed by the middleware
    land in [**kwargs] and are not read. The message and the author are
    spliced between quotes into the text of one [dolt_commit] statement:
    when both are plain the engine makes that commit, otherwise the engine
    decides, and its exception leaves [save]. The state is the engine's log
    of the commits made. *)
Definition Commit_save `{!Engine} (msg : string) (author : option string)
    (engine : list DoltCommit) : Py.result (list DoltCommit) :=
  let author :=
    match author with
    | Some a => if String.eqb a "" then "nautobot <nautobot@ntc.com>" else a
    | None => "nautobot <nautobot@ntc.com>"
    end in
  if Py.plain msg && Py.plain author then
    Py.Ok (engine ++ [{| flags := ["--all"; "--force"; "--allow-empty"];
                         message := msg;
                         author := author |}])
  else
    made ← broken_commit (dolt_commit msg author);
    Py.Ok (engine ++ made).

End Models.

(** ** [dolt/middleware.py] *)

Module Middleware.

Import Models.

Inductive Level := info | warning | error.

(** The request, by what the middleware reads and writes: the path, the
    session and header mappings, and the messages queued for the user. *)
Record Request := {
  path : string;
  session : gmap string string;
  headers : gmap string string;
  messages : list (Level * string);
}.

(** A model instance: its class and [str(instance)]. *)
Record Instance := {
  type_of : Model;
  str : string;
}.

(** *** Signals

    Django's [Signal.connect(receiver, dispatch_uid=uid)] adds the receiver
    under the key [uid] unless a receiver is already registered under that
    key; [Signal.disconnect(receiver, dispatch_uid=uid)] removes the
    receiver registered under [uid]. A receiver here is a bound method:
    the object it is bound to and the method. *)
Inductive Method := handle_update | handle_delete.

Record Receiver := {
  owner : nat;
  method : Method;
}.

Definition Signal := list (string * Receiver).

Definition connected (dispatch_uid : string) (sig : Signal) : bool :=
  existsb (fun kr => String.eqb (fst kr) dispatch_uid) sig.

Definition connect (receiver : Receiver) (dispatch_uid : string)
    (sig : Signal) : Signal :=
  if connected dispatch_uid sig then sig
  else sig ++ [(dispatch_uid, receiver)].

Fixpoint disconnect (dispatch_uid : string) (sig : Signal) : Signal :=
  match sig with
  | [] => []
  | kr :: rest =>
      if String.eqb (fst kr) dispatch_uid then rest
      else kr :: disconnect dispatch_uid rest
  end.

Record Signals := {
  post_save : Signal;
  m2m_changed : Signal;
  pre_delete : Signal;
}.

(** What lives outside the context manager: the signal registry and the
    engine's log of commit statements. *)
Record World := {
  signals : Signals;
  engine : list DoltCommit;
}.

Section WithConstants.
Context `{!Constants, !Utils, !Engine}.

Definition branch_from_request (request : Request) : string :=
  match session request !! DOLT_BRANCH_KEYWORD with
  | Some b => b
  | None =>
      match headers request !! DOLT_BRANCH_KEYWORD with
      | Some b => b
      | None => DOLT_DEFAULT_BRANCH
      end
  end.

Definition is_health_check (request : Request) : bool :=
  Py.contains "/health" (path request).

(** [DoltBranchMiddleware.get_branch]: the request after the call (a
    warning queued, the session overwritten) and the branch returned or
    the exception raised. *)
Definition get_branch (dolt_branches : list Branch) (request : Request)
  : Request * Py.result Branch :=
  let requested := branch_from_request request in
  match Branch_objects_get dolt_branches requested with
  | Py.Ok b => (request, Py.Ok b)
  | Py.Raise Py.ObjectDoesNotExist =>
      let msg := "<div class=" +:+ Py.dquote +:+ "text-center" +:+ Py.dquote
                 +:+ ">branch not found: " +:+ requested +:+ "</div>" in
      let request :=
        {| path := path request;
           session := <[DOLT_BRANCH_KEYWORD := DOLT_DEFAULT_BRANCH]> (session request);
           headers := headers request;
           messages := messages request ++ [(warning, msg)] |} in
      (request, Branch_objects_get dolt_branches DOLT_DEFAULT_BRANCH)
  | Py.Raise e => (request, Py.Raise e)
  end.

(** *** [AutoDoltCommit] *)

Record AutoDoltCommit := {
  request : Request;
  branch : string;
  commit : bool;
  changes : list string;
  instances : list Instance;
}.

Definition __init__ (request : Request) (branch : string) : AutoDoltCommit :=
  {| request := request; branch := branch; commit := false;
     changes := []; instances := [] |}.

Definition set_branch (b : string) (self : AutoDoltCommit) : AutoDoltCommit :=
  {| request := request self; branch := b; commit := commit self;
     changes := changes self; instances := instances self |}.

Definition append_change (c : string) (self : AutoDoltCommit) : AutoDoltCommit :=
  {| request := request self; branch := branch self; commit := commit self;
     changes := changes self ++ [c]; instances := instances self |}.

Definition set_commit (self : AutoDoltCommit) : AutoDoltCommit :=
  {| request := request self; branch := branch self; commit := true;
     changes := changes self; instances := instances self |}.

Definition __enter__ (self_id : nat) (sigs : Signals) : Signals :=
  {| post_save :=
       connect {| owner := self_id; method := handle_update |}
               "dolt_commit_update" (post_save sigs);
     m2m_changed :=
       connect {| owner := self_id; method := handle_update |}
               "dolt_commit_update" (m2m_changed sigs);
     pre_delete :=
       connect {| owner := self_id; method := handle_delete |}
               "dolt_commit_delete" (pre_delete sigs) |}.

Definition change_msg_for_dolt_obj (instance : Instance)
    (kwargs : gmap string Py.value) : string :=
  let created :=
    match kwargs !! "created" with
    | Some v => Py.truthy v
    | None => false
    end in
  let verb := if created then "Created" else "Updated" in
  verb +:+ " " +:+ verbose_name (type_of instance) +:+ " "
    +:+ Py.dquote +:+ str instance +:+ Py.dquote +:+ " ".

(** [_handle_update]: the state after the call and the exception it
    raised, if any ([kwargs["pk_set"]] on a missing key). *)
Definition _handle_update (self : AutoDoltCommit) (instance : Instance)
    (kwargs : gmap string Py.value) : AutoDoltCommit * option Py.exn :=
  let self :=
    if is_dolt_model (type_of instance) then
      append_change (change_msg_for_dolt_obj instance kwargs)
                    (set_branch DOLT_DEFAULT_BRANCH self)
    else self in
  let self :=
    if bool_decide (type_of instance = ObjectChange) then
      append_change (str instance) self
    else self in
  if bool_decide (is_Some (kwargs !! "created")) then
    (set_commit self, None)
  else if match kwargs !! "action" with
          | Some (Py.VStr a) =>
              String.eqb a "post_add" || String.eqb a "post_remove"
          | _ => false
          end then
    match kwargs !! "pk_set" with
    | None => (self, Some (Py.KeyError "pk_set"))
    | Some v => if Py.truthy v then (set_commit self, None) else (self, None)
    end
  else (self, None).

Definition _handle_delete (self : AutoDoltCommit) (instance : Instance)
    (kwargs : gmap string Py.value) : AutoDoltCommit :=
  set_commit self.

Definition _get_commit_message (self : AutoDoltCommit) : string :=
  match changes self with
  | _ :: _ => Py.join "; " (changes self)
  | [] =>
      match instances self with
      | _ :: _ => Py.join "; " (List.map str (instances self))
      | [] => "auto dolt commit"
      end
  end.

Definition _commit (self : AutoDoltCommit) (engine : list DoltCommit)
  : Py.result (list DoltCommit) :=
  let msg := _get_commit_message self in
  Commit_save msg None engine.

(** [__exit__], by the world it leaves. The arguments describing the
    exception of the block are not read, and the method returns [None], so
    that exception goes on propagating. An exception of the commit leaves
    the method at once, before the receivers are disconnected. *)
Definition __exit__ (self : AutoDoltCommit) (exc : option Py.exn)
    (w : World) : World :=
  if is_health_check (request self) then w
  else
    match (if commit self then _commit self (engine w) else Py.Ok (engine w)) with
    | Py.Raise _ => w
    | Py.Ok engine =>
        let sigs := signals w in
        {| signals :=
             {| post_save := disconnect "dolt_commit_update" (post_save sigs);
                m2m_changed := disconnect "dolt_commit_update" (m2m_changed sigs);
                pre_delete := disconnect "dolt_commit_delete" (pre_delete sigs) |};
           engine := engine |}
    end.

(** [__exit__], by the exception it raises: that of the commit, if any. *)
Definition exit_raises (self : AutoDoltCommit) (w : World) : option Py.exn :=
  if is_health_check (request self) then None
  else if commit self then
    match _commit self (engine w) with
    | Py.Raise e => Some e
    | Py.Ok _ => None
    end
  else None.

(** *** Events of a unit of work

    The notifications Django sends to the three signals, with the
    keyword arguments the handlers read: [post_save] sends [created];
    [m2m_changed] sends [action] and [pk_set] ([None] for the clear
    actions); [pre_delete] sends neither. *)
Inductive Event :=
| PostSave (instance : Instance) (created : bool)
| M2MChanged (instance : Instance) (action : string) (pk_set : option (gset Z))
| PreDelete (instance : Instance).

Definition kwargs_of (ev : Event) : gmap string Py.value :=
  match ev with
  | PostSave _ created => {[ "created" := Py.VBool created ]}
  | M2MChanged _ action pk_set =>
      {[ "action" := Py.VStr action;
         "pk_set" := match pk_set with
                     | Some s => Py.VSet s
                     | None => Py.VNone
                     end ]}
  | PreDelete _ => ∅
  end.

(** The handler a signal calls on this context manager. *)
Definition observe (self : AutoDoltCommit) (ev : Event) : AutoDoltCommit :=
  match ev with
  | PostSave instance _ | M2MChanged instance _ _ =>
      fst (_handle_update self instance (kwargs_of ev))
  | PreDelete instance => _handle_delete self instance (kwargs_of ev)
  end.

(** [DoltAutoCommitMiddleware.__call__]: the [with] block around one
    unit of work, given as the events its handlers observe and the
    exception the block raised, if any. Returns the world after the
    block and the context manager's final state. *)
Definition __call__ (self_id : nat) (request : Request)
    (events : list Event) (exc : option Py.exn) (w : World)
  : World * AutoDoltCommit :=
  let branch := branch_from_request request in
  let self := __init__ request branch in
  let w := {| signals := __enter__ self_id (signals w); engine := engine w |} in
  let self := foldl observe self events in
  (__exit__ self exc w, self).

(** The exception that leaves the [with] block of [__call__]: that of
    [__exit__] when it raises, else that of the block. *)
Definition call_raises (request : Request) (events : list Event)
    (exc : option Py.exn) (w : World) : option Py.exn :=
  let self := foldl observe (__init__ request (branch_from_request request)) events in
  match exit_raises self w with
  | Some e => Some e
  | None => exc
  end.

End WithConstants.

End Middleware.

(** ** [dolt/routers.py] *)

Module Routers.

(** What the router reads from the running process: the switch behind
    [is_global_router_enabled()] and the branch [active_branch()] asks the
    engine for. *)
Record Runtime := {
  global_router_enabled : bool;
  active_branch : string;
}.

Section WithConstants.
Context `{!Constants, !Utils}.

Definition branch_is_not_primary (rt : Runtime) : bool :=
  negb (String.eqb (active_branch rt) DOLT_DEFAULT_BRANCH).

(** A router answers [None] (no opinion: the default, branch-scoped
    database) or the alias of a database. *)
Definition db_for_read (rt : Runtime) (model : Model) : option string :=
  if negb (global_router_enabled rt) then None
  else if is_versioned_model model then None
  else Some GLOBAL_DB.

Definition write_error (rt : Runtime) (model : Model) : string :=
  let indent := "                        " in
  "Error writing model <strong>" +:+ model_name model +:+ "</strong> "
    +:+ Py.newline +:+ indent
    +:+ "on branch <strong>" +:+ Py.dquote +:+ active_branch rt +:+ Py.dquote
    +:+ "</strong>: " +:+ Py.newline +:+ indent
    +:+ "non-versioned models must be written on branch "
    +:+ Py.newline +:+ indent
    +:+ "<strong>" +:+ Py.dquote +:+ DOLT_DEFAULT_BRANCH +:+ Py.dquote
    +:+ "</strong>.".

Definition db_for_write (rt : Runtime) (model : Model)
  : Py.result (option string) :=
  if negb (global_router_enabled rt) then Py.Ok None
  else if is_dolt_model model then Py.Ok (Some GLOBAL_DB)
  else if is_versioned_model model then Py.Ok None
  else if branch_is_not_primary rt then
    Py.Raise (Py.DoltError (write_error rt model))
  else Py.Ok (Some GLOBAL_DB).

Definition allow_relation : bool := true.

End WithConstants.

End Routers.

(** ** [dolt/diffs.py] *)

Module Diffs.

(** A row of the content-type table; [model_class()] is [None] for a
    stale entry. *)
Record ContentType := {
  ct_app_label : string;
  ct_model : string;
  ct_model_class : option Model;
}.

#[export] Instance ContentType_eq_dec : EqDecision ContentType.
Proof. solve_decision. Defined.

Inductive json := JNull | JStr (s : string) | JInt (z : Z).

(** A row of [dolt_commit_diff_<table>]: the typed columns every diff
    table has, and the per-field columns by name. *)
Record DiffRecord := {
  from_commit : string;
  to_commit : string;
  from_id : option Z;
  to_id : option Z;
  diff_type : string;
  field_columns : gmap string json;
}.

Definition json_of_id (i : option Z) : json :=
  match i with
  | Some z => JInt z
  | None => JNull
  end.

(** [F(name)] evaluated on a diff row. *)
Definition column (d : DiffRecord) (name : string) : json :=
  if String.eqb name "from_commit" then JStr (from_commit d)
  else if String.eqb name "to_commit" then JStr (to_commit d)
  else if String.eqb name "from_id" then json_of_id (from_id d)
  else if String.eqb name "to_id" then json_of_id (to_id d)
  else if String.eqb name "diff_type" then JStr (diff_type d)
  else default JNull (field_columns d !! name).

(** A row of a model's table. *)
Record ModelRow := {
  pk : Z;
  fields : gmap string json;
}.

(** A row of a model's table with the [diff] annotation: the JSON object
    of the scalar subquery, [None] when the subquery has no row. *)
Record DiffRow := {
  row : ModelRow;
  diff : option (list (string * json));
}.

(** The database, as far as the diff engine queries it: the content-type
    table in the order [ContentType.objects.all()] yields it, the diff
    table of each model table (the same on every connection), and each
    model table as of a commit ([.using(db_for_commit(c))]). *)
Record Database := {
  content_types : list ContentType;
  dolt_commit_diff : string -> list DiffRecord;
  as_of : string -> string -> list ModelRow;
}.

(** [dolt/dynamic/diff_factory.py] is not among the sources: what the
    diff engine takes from the two factories is a parameter. The diff
    model of a content type reads [dolt_commit_diff_<db_table>]; its field
    names and the verbose name of the source model are given here. *)
Class DiffFactory := {
  diff_model_fields : Model -> list string;
  source_model_verbose_name : ContentType -> string;
}.

(** An instance of the table class [DiffListViewFactory] builds for a
    content type, over the rows given. *)
Record DiffTable := {
  table_content_type : ContentType;
  table_rows : list DiffRow;
}.

(** One entry of [diff_results]. *)
Record Package := {
  name : string;
  table : DiffTable;
  added : nat;
  modified : nat;
  removed : nat;
}.

(** One [SELECT '<app_label>', '<model>', count( * ) FROM
    dolt_commit_diff_<table> WHERE from_commit = ... AND to_commit = ...]
    of the union. *)
Record Select := {
  sel_app_label : string;
  sel_model : string;
  sel_table : string;
  sel_from_commit : string;
  sel_to_commit : string;
}.

(** [None] and the empty string are false in a condition. *)
Definition commit_given (c : option string) : bool :=
  match c with
  | Some h => negb (String.eqb h "")
  | None => false
  end.

Section WithConstants.
Context `{!Constants, !Utils, !DiffFactory, !Models.Engine}.

(** [diffs = factory.get_model().objects.filter(from_commit=...,
    to_commit=...)]. *)
Definition diffs (db : Database) (model : Model) (from_c to_c : string)
  : list DiffRecord :=
  List.filter
    (fun d => String.eqb (from_commit d) from_c && String.eqb (to_commit d) to_c)
    (dolt_commit_diff db (db_table model)).

Definition run_select (db : Database) (q : Select) : string * string * Z :=
  (sel_app_label q, sel_model q,
   Z.of_nat (length
     (List.filter
        (fun d => String.eqb (from_commit d) (sel_from_commit q)
                  && String.eqb (to_commit d) (sel_to_commit q))
        (dolt_commit_diff db (sel_table q))))).

(** The text of one select, and of the union of the selects. *)
Definition select_text (q : Select) : string :=
  "SELECT '" +:+ sel_app_label q +:+ "', '" +:+ sel_model q +:+ "', count("
    +:+ "*) " +:+ Py.newline
    +:+ "                FROM dolt_commit_diff_" +:+ sel_table q +:+ Py.newline
    +:+ "                WHERE from_commit = '" +:+ sel_from_commit q +:+ "' "
    +:+ Py.newline
    +:+ "                AND to_commit = '" +:+ sel_to_commit q +:+ "'".

Definition union_text (diff_counts : list Select) : string :=
  "(" +:+ Py.join ") UNION (" (List.map select_text diff_counts) +:+ ")".

(** The values spliced into a select leave its text as it was written. *)
Definition well_spliced (q : Select) : bool :=
  Py.plain (sel_app_label q) && Py.plain (sel_model q)
  && Py.identifier (sel_table q)
  && Py.plain (sel_from_commit q) && Py.plain (sel_to_commit q).

(** [cursor.execute(union); cursor.fetchall()]. With no select the
    statement is ["()"], which the engine rejects. When every spliced value
    leaves the text as written, the rows are the distinct rows of the
    selects; otherwise the engine decides. *)
Definition execute_union (db : Database) (diff_counts : list Select)
  : Py.result (list (string * string * Z)) :=
  match diff_counts with
  | [] => Py.Raise (Py.ProgrammingError "()")
  | _ =>
      if forallb well_spliced diff_counts
      then Py.Ok (remove_dups (List.map (run_select db) diff_counts))
      else Models.broken_union (union_text diff_counts)
  end.

Definition content_types_with_diffs (db : Database) (from_c to_c : string)
  : Py.result (list ContentType) :=
  let diff_counts :=
    List.flat_map
      (fun ct =>
         match ct_model_class ct with
         | None => []
         | Some model =>
             match diff_table_for_model model with
             | None => []
             | Some _ =>
                 [{| sel_app_label := ct_app_label ct;
                     sel_model := ct_model ct;
                     sel_table := db_table model;
                     sel_from_commit := from_c;
                     sel_to_commit := to_c |}]
             end
         end)
      (content_types db) in
  res ← execute_union db diff_counts;
  let nonempty := Py.filter_iter (fun tup => negb (snd tup =? 0)) res in
  let '(app_labels, nonempty) :=
    Py.set_comprehension (fun tup => fst (fst tup)) nonempty in
  let '(models, nonempty) :=
    Py.set_comprehension (fun tup => snd (fst tup)) nonempty in
  Py.Ok (List.filter
           (fun ct => bool_decide (ct_app_label ct ∈ app_labels)
                      && bool_decide (ct_model ct ∈ models))
           (content_types db)).

Definition diff_annotation_query_fields (model : Model) : list string :=
  List.filter (fun n => negb (Py.contains "__" n)) (diff_model_fields model).

(** [JSONObject(root=Value(root), **diff_annotation_query_fields(...))]
    evaluated on a diff row; the diff model has no field named [root]
    (the call would not accept the keyword twice). *)
Definition JSONObject (root : string) (model : Model) (d : DiffRecord)
  : list (string * json) :=
  ("root", JStr root)
    :: List.map (fun n => (n, column d n)) (diff_annotation_query_fields model).

(** [pk__in=ids]: a NULL in the list matches no row. *)
Definition pk_in (ids : list (option Z)) (r : ModelRow) : bool :=
  bool_decide (Some (pk r) ∈ ids).

(** The [diff] annotation: the object of the diff row whose [to_id]
    (resp. [from_id]) is the row's id. *)
Definition annotate (root : string) (id_of : DiffRecord -> option Z)
    (model : Model) (ds : list DiffRecord) (r : ModelRow) : DiffRow :=
  {| row := r;
     diff := JSONObject root model
               <$> List.find (fun d => bool_decide (id_of d = Some (pk r))) ds |}.

Definition to_queryset (db : Database) (model : Model) (from_c to_c : string)
  : list DiffRow :=
  let ds := diffs db model from_c to_c in
  List.map (annotate "to" to_id model ds)
    (List.filter (pk_in (List.map to_id ds)) (as_of db to_c (db_table model))).

Definition from_queryset (db : Database) (model : Model) (from_c to_c : string)
  : list DiffRow :=
  let ds := diffs db model from_c to_c in
  List.map (annotate "from" from_id model ds)
    (List.filter
       (pk_in (List.map from_id
                 (List.filter (fun d => String.eqb (diff_type d) "removed") ds)))
       (as_of db from_c (db_table model))).

Definition count_type (ty : string) (ds : list DiffRecord) : nat :=
  length (List.filter (fun d => String.eqb (diff_type d) ty) ds).

(** The body of the loop of [two_dot_diffs] for one content type:
    [None] when the body reaches [continue], the appended entry
    otherwise. *)
Definition diff_package (db : Database) (from_c to_c : string)
    (content_type : ContentType) : Py.result (option Package) :=
  match ct_model_class content_type with
  | None =>
      Py.Raise (Py.AttributeError "'NoneType' object has no attribute 'objects'")
  | Some model =>
      let ds := diffs db model from_c to_c in
      let diff_rows :=
        Py.sorted (fun d => pk (row d))
          (to_queryset db model from_c to_c ++ from_queryset db model from_c to_c) in
      match diff_rows with
      | [] => Py.Ok None
      | _ =>
          Py.Ok (Some
            {| name := source_model_verbose_name content_type +:+ " Diffs";
               table := {| table_content_type := content_type;
                           table_rows := diff_rows |};
               added := count_type "added" ds;
               modified := count_type "modified" ds;
               removed := count_type "removed" ds |})
      end
  end.

(** The loop of [two_dot_diffs] over the content types it is given. *)
Fixpoint diff_results (db : Database) (from_c to_c : string)
    (cts : list ContentType) : Py.result (list Package) :=
  match cts with
  | [] => Py.Ok []
  | content_type :: cts' =>
      p ← diff_package db from_c to_c content_type;
      rest ← diff_results db from_c to_c cts';
      Py.Ok (match p with
             | Some pkg => pkg :: rest
             | None => rest
             end)
  end.

Definition two_dot_diffs (db : Database) (from_commit to_commit : option string)
  : Py.result (list Package) :=
  if negb (commit_given from_commit && commit_given to_commit) then
    Py.Raise (Py.ValueError "must specify both a to_commit and from_commit")
  else
    let from_c := default "" from_commit in
    let to_c := default "" to_commit in
    cts ← content_types_with_diffs db from_c to_c;
    diff_results db from_c to_c cts.

End WithConstants.

End Diffs.

(** ** Vocabulary of the properties *)

Module MiddlewareSpec.

Import Middleware.

Section WithConstants.
Context `{!Constants, !Utils}.

Definition added_or_removed (action : string) : bool :=
  String.eqb action "post_add" || String.eqb action "post_remove".

Definition nonempty_keys (pk_set : option (gset Z)) : bool :=
  match pk_set with
  | Some s => negb (bool_decide (s = ∅))
  | None => false
  end.

(** The events after which the handlers leave the dirty flag set: every
    post-write event, a many-to-many event that added or removed a
    non-empty set of keys, every delete. *)
Definition marks_dirty (ev : Event) : bool :=
  match ev with
  | PostSave _ _ => true
  | M2MChanged _ action pk_set => added_or_removed action && nonempty_keys pk_set
  | PreDelete _ => true
  end.

(** The change descriptions the handlers append for an event. *)
Definition descriptions (ev : Event) : list string :=
  match ev with
  | PostSave instance _ | M2MChanged instance _ _ =>
      (if is_dolt_model (type_of instance)
       then [change_msg_for_dolt_obj instance (kwargs_of ev)] else [])
      ++ (if bool_decide (type_of instance = ObjectChange)
          then [str instance] else [])
  | PreDelete _ => []
  end.

(** Qualification of a post-write or many-to-many event in the words of
    the specification: the created flag is true, or the added/removed
    key set is non-empty. *)
Definition qualifies_as_specified (ev : Event) : bool :=
  match ev with
  | PostSave _ created => created
  | M2MChanged _ action pk_set => added_or_removed action && nonempty_keys pk_set
  | PreDelete _ => false
  end.

(** The message of the commit a unit of work issues. *)
Definition synthesized_message (changes : list string) : string :=
  match changes with
  | [] => "auto dolt commit"
  | _ => Py.join "; " changes
  end.

Definition subscribed (sigs : Signals) : bool :=
  connected "dolt_commit_update" (post_save sigs)
  && connected "dolt_commit_update" (m2m_changed sigs)
  && connected "dolt_commit_delete" (pre_delete sigs).

Definition unsubscribed (sigs : Signals) : bool :=
  negb (connected "dolt_commit_update" (post_save sigs))
  && negb (connected "dolt_commit_update" (m2m_changed sigs))
  && negb (connected "dolt_commit_delete" (pre_delete sigs)).

(** No two receivers of a signal share a dispatch key. *)
Definition well_keyed (sigs : Signals) : Prop :=
  NoDup (List.map fst (post_save sigs))
  /\ NoDup (List.map fst (m2m_changed sigs))
  /\ NoDup (List.map fst (pre_delete sigs)).

End WithConstants.

End MiddlewareSpec.

Module DiffsSpec.

Import Diffs.

(** The [root] tag of an annotated row. *)
Definition root_tag (r : DiffRow) : option json :=
  d ← diff r; snd <$> List.find (fun kv => String.eqb (fst kv) "root") d.

Definition tagged (root : string) (r : DiffRow) : bool :=
  match root_tag r with
  | Some (JStr s) => String.eqb s root
  | _ => false
  end.

Definition row_pk (r : DiffRow) : Z := pk (row r).

End DiffsSpec.

(** ** A concrete deployment

    The values used to run the definitions on concrete inputs: the
    constants as the comments of the sources name them (the primary branch
    is ["main"]), and helpers that classify a model by its application
    label. *)

Module Example.

Definition constants : Constants :=
  {| DOLT_BRANCH_KEYWORD := "dolt-branch";
     DOLT_DEFAULT_BRANCH := "main";
     GLOBAL_DB := "global" |}.

(** An engine that rejects every statement a spliced value has changed. *)
Definition sql_engine : Models.Engine :=
  {| Models.broken_commit := fun _ => Py.Raise (Py.ProgrammingError "syntax error");
     Models.broken_union := fun _ => Py.Raise (Py.ProgrammingError "syntax error") |}.

Definition object_change : Model :=
  {| model_name := "ObjectChange"; app_label := "extras";
     verbose_name := "object change"; db_table := "extras_objectchange" |}.

Definition device : Model :=
  {| model_name := "Device"; app_label := "dcim";
     verbose_name := "device"; db_table := "dcim_device" |}.

Definition site : Model :=
  {| model_name := "Site"; app_label := "dcim";
     verbose_name := "site"; db_table := "dcim_site" |}.

Definition branch_model : Model :=
  {| model_name := "Branch"; app_label := "dolt";
     verbose_name := "branch"; db_table := "dolt_branches" |}.

Definition user_model : Model :=
  {| model_name := "User"; app_label := "users";
     verbose_name := "user"; db_table := "auth_user" |}.

Definition utils : Utils :=
  {| is_dolt_model := fun m => String.eqb (app_label m) "dolt";
     is_versioned_model := fun m => String.eqb (app_label m) "dcim";
     ObjectChange := object_change;
     diff_table_for_model := fun m =>
       if String.eqb (app_label m) "dcim"
       then Some (model_name m +:+ "Table") else None |}.

Definition diff_factory : Diffs.DiffFactory :=
  {| Diffs.diff_model_fields := fun _ =>
       ["diff_type"; "from_id"; "to_id"; "to_site__name"];
     Diffs.source_model_verbose_name := fun ct =>
       match Diffs.ct_model_class ct with
       | Some m => verbose_name m
       | None => ""
       end |}.

Definition plain_request (p : string) : Middleware.Request :=
  {| Middleware.path := p; Middleware.session := ∅;
     Middleware.headers := ∅; Middleware.messages := [] |}.

Definition no_signals : Middleware.Signals :=
  {| Middleware.post_save := []; Middleware.m2m_changed := [];
     Middleware.pre_delete := [] |}.

Definition fresh_world : Middleware.World :=
  {| Middleware.signals := no_signals; Middleware.engine := [] |}.

Definition a_device : Middleware.Instance :=
  {| Middleware.type_of := device; Middleware.str := "sw-01" |}.

Definition a_branch : Middleware.Instance :=
  {| Middleware.type_of := branch_model; Middleware.str := "feature" |}.

Definition main_branch : Models.Branch :=
  {| Models.name := "main"; Models.hash := "h0";
     Models.latest_committer := "nautobot";
     Models.latest_committer_email := "nautobot@ntc.com";
     Models.latest_commit_date := "2021-06-01";
     Models.latest_commit_message := "init" |}.

(** A database where, between commits ["c1"] and ["c2"], device 7 was
    modified, device 9 removed and device 3 added, and no site changed. *)
Definition ct_device : Diffs.ContentType :=
  {| Diffs.ct_app_label := "dcim"; Diffs.ct_model := "device";
     Diffs.ct_model_class := Some device |}.

Definition ct_site : Diffs.ContentType :=
  {| Diffs.ct_app_label := "dcim"; Diffs.ct_model := "site";
     Diffs.ct_model_class := Some site |}.

Definition ct_user : Diffs.ContentType :=
  {| Diffs.ct_app_label := "users"; Diffs.ct_model := "user";
     Diffs.ct_model_class := Some user_model |}.

Definition device_diff (from_id to_id : option Z) (ty : string)
  : Diffs.DiffRecord :=
  {| Diffs.from_commit := "c1"; Diffs.to_commit := "c2";
     Diffs.from_id := from_id; Diffs.to_id := to_id;
     Diffs.diff_type := ty; Diffs.field_columns := ∅ |}.

Definition device_row (pk : Z) (name : string) : Diffs.ModelRow :=
  {| Diffs.pk := pk; Diffs.fields := {[ "name" := Diffs.JStr name ]} |}.

Definition db : Diffs.Database :=
  {| Diffs.content_types := [ct_device; ct_site; ct_user];
     Diffs.dolt_commit_diff := fun table =>
       if String.eqb table "dcim_device" then
         [device_diff (Some 7) (Some 7) "modified";
          device_diff (Some 9) None "removed";
          device_diff None (Some 3) "added"]
       else [];
     Diffs.as_of := fun commit table =>
       if String.eqb table "dcim_device" then
         if String.eqb commit "c1" then
           [device_row 7 "sw-07"; device_row 9 "sw-09"]
         else if String.eqb commit "c2" then
           [device_row 7 "sw-07b"; device_row 3 "sw-03"]
         else []
       else [] |}.

Definition device_json (root : string) (from_id to_id : option Z)
    (ty : string) : list (string * Diffs.json) :=
  [("root", Diffs.JStr root); ("diff_type", Diffs.JStr ty);
   ("from_id", Diffs.json_of_id from_id); ("to_id", Diffs.json_of_id to_id)].

(** The three rows the loop of [two_dot_diffs] builds for devices. *)
Definition row_3 : Diffs.DiffRow :=
  {| Diffs.row := device_row 3 "sw-03";
     Diffs.diff := Some (device_json "to" None (Some 3) "added") |}.

Definition row_7 : Diffs.DiffRow :=
  {| Diffs.row := device_row 7 "sw-07b";
     Diffs.diff := Some (device_json "to" (Some 7) (Some 7) "modified") |}.

Definition row_9 : Diffs.DiffRow :=
  {| Diffs.row := device_row 9 "sw-09";
     Diffs.diff := Some (device_json "from" (Some 9) None "removed") |}.

Definition device_package : Diffs.Package :=
  {| Diffs.name := "device Diffs";
     Diffs.table := {| Diffs.table_content_type := ct_device;
                       Diffs.table_rows := [row_3; row_7; row_9] |};
     Diffs.added := 1; Diffs.modified := 1; Diffs.removed := 1 |}.

(** A context manager that saw a device being saved during a
    health-check request. *)
Definition dirty_health_check : Middleware.AutoDoltCommit :=
  {| Middleware.request := plain_request "/health/";
     Middleware.branch := "main";
     Middleware.commit := true;
     Middleware.changes := [];
     Middleware.instances := [] |}.

Definition feature_request : Middleware.Request :=
  {| Middleware.path := "/dcim/devices/";
     Middleware.session := {[ "dolt-branch" := "feature" ]};
     Middleware.headers := ∅;
     Middleware.messages := [] |}.

Definition develop_branch : Models.Branch :=
  {| Models.name := "develop"; Models.hash := "h1";
     Models.latest_committer := "nautobot";
     Models.latest_committer_email := "nautobot@ntc.com";
     Models.latest_commit_date := "2021-06-02";
     Models.latest_commit_message := "work" |}.

End Example.

(** ** The rest of [dolt/middleware.py]: the two request middlewares *)

Module RequestMiddleware.

Import Models Middleware.

(** The responses the middlewares build or pass on. *)
Inductive Response :=
| HttpResponse (status : nat) (content : string)
| HttpResponseRedirect (url : string).

(** [str(e)]: the message of the exception; a [KeyError] shows its key
    quoted, and the lookup error of the branch table carries the ORM's
    message. *)
Definition exn_str (e : Py.exn) : string :=
  match e with
  | Py.ValueError msg | Py.AttributeError msg
  | Py.DoltError msg | Py.ProgrammingError msg => msg
  | Py.KeyError key => "'" +:+ key +:+ "'"
  | Py.ObjectDoesNotExist => "Branch matching query does not exist."
  end.

(** [messages.<level>(request, text)]. *)
Definition add_message (level : Level) (text : string) (request : Request)
  : Request :=
  {| path := path request;
     session := session request;
     headers := headers request;
     messages := messages request ++ [(level, text)] |}.

(** The banner [process_view] queues for an authenticated user. *)
Definition active_branch_banner (active : string) : string :=
  Py.newline +:+ "                <div class=" +:+ Py.dquote +:+ "text-center"
    +:+ Py.dquote +:+ ">" +:+ Py.newline
    +:+ "                    Active Branch: " +:+ active +:+ Py.newline
    +:+ "                </div>" +:+ Py.newline +:+ "            ".

Section WithConstants.
Context `{!Constants, !Utils, !Engine}.

(** [dolt_health_check_intercept_middleware]: the wrapped handler, run
    on the world, is a parameter. *)
Definition dolt_health_check_intercept_middleware {W : Type}
    (get_response : Request -> W -> W * Py.result Response)
    (request : Request) (w : W) : W * Py.result Response :=
  if is_health_check request then (w, Py.Ok (HttpResponse 201 ""))
  else get_response request w.

(** [DoltBranchMiddleware.process_view]. The session of the engine is
    the name of its active branch; [checkout] is [branch.checkout()] on
    that session (the new active branch, or the engine's exception);
    [is_authenticated] is [request.user.is_authenticated]; the view gets
    the request and the session, and gives them back with its response or
    its exception. *)
Definition process_view
    (dolt_branches : list Branch)
    (checkout : Branch -> string -> Py.result string)
    (is_authenticated : bool)
    (view_func : Request -> string -> Request * string * Py.result Response)
    (request : Request) (active : string)
  : Request * string * Py.result Response :=
  match get_branch dolt_branches request with
  | (request, Py.Raise e) => (request, active, Py.Raise e)
  | (request, Py.Ok branch) =>
      let '(request, active) :=
        match checkout branch active with
        | Py.Ok active' => (request, active')
        | Py.Raise e =>
            (add_message error
               ("could not checkout branch " +:+ name branch +:+ ": " +:+ exn_str e)
               request,
             active)
        end in
      let request :=
        if is_authenticated
        then add_message info (active_branch_banner active) request
        else request in
      match view_func request active with
      | (request, active, Py.Raise (Py.DoltError msg)) =>
          (add_message error msg request, active,
           Py.Ok (HttpResponseRedirect (path request)))
      | outcome => outcome
      end
  end.

(** [DoltAutoCommitMiddleware.__call__] as a handler: the wrapped handler
    is given by the events the context manager observes while it runs and
    by its response or exception, which the [with] block passes on unless
    its exit raises. *)
Definition auto_commit_handler (self_id : nat) (events : list Event)
    (outcome : Py.result Response) (request : Request) (w : World)
  : World * Py.result Response :=
  let exc := match outcome with
             | Py.Ok _ => None
             | Py.Raise e => Some e
             end in
  (fst (__call__ self_id request events exc w),
   match call_raises request events exc w with
   | Some e => Py.Raise e
   | None => outcome
   end).

End WithConstants.

End RequestMiddleware.

(** ** The SQL statements of [nautobot_dolt/models.py] *)

Module Statements.

Import Models.

(** [str(x)] in an f-string, for a value that may be [None]. *)
Definition str_of (x : option string) : string := default "None" x.

(** [Branch.checkout_branch]. *)
Definition checkout_branch (self : Branch) : list string :=
  ["SELECT dolt_checkout('" +:+ name self +:+ "') FROM dual;"].

(** The statement of [Commit.save] and the text between its message and
    its author. *)
Definition author_separator : string := Models.author_separator.

Definition dolt_commit (message author : string) : string :=
  Models.dolt_commit message author.

(** [Commit(message=...).save(author=...)], by the statements executed. *)
Definition Commit_save_sql (message : string) (author : option string)
  : list string :=
  let author :=
    match author with
    | Some a => if String.eqb a "" then "nautobot <nautobot@ntc.com>" else a
    | None => "nautobot <nautobot@ntc.com>"
    end in
  [dolt_commit message author].

(** [Branch.merge]. *)
Definition merge (self : Branch) (merge_branch : string) : list string :=
  checkout_branch self
    ++ ["SELECT dolt_merge('" +:+ merge_branch +:+ "') FROM dual;"]
    ++ Commit_save_sql ("merged " +:+ merge_branch +:+ " into " +:+ name self) None.

(** [Branch.save], for a branch built with the given [starting_branch]. *)
Definition Branch_save (self : Branch) (starting_branch : option string)
  : list string :=
  ["INSERT INTO dolt_branches (name,hash) VALUES ('" +:+ name self
     +:+ "',hashof('" +:+ str_of starting_branch +:+ "'));"].

End Statements.

(** ** The rest of [dolt/diffs.py] *)

Module ThreeDot.

Import Diffs.

(** [Commit.merge_base] belongs to [dolt/models.py], which is not among
    the sources: it is taken as a parameter. *)
Class CommitModel := {
  merge_base : string -> string -> option string;
}.

Section WithConstants.
Context `{!Constants, !Utils, !DiffFactory, !Models.Engine, !CommitModel}.

Definition three_dot_diffs (db : Database) (from_commit to_commit : option string)
  : Py.result (list Package) :=
  if negb (commit_given from_commit && commit_given to_commit) then
    Py.Raise (Py.ValueError "must specify both a to_commit and from_commit")
  else
    let base := merge_base (default "" from_commit) (default "" to_commit) in
    two_dot_diffs db base to_commit.

End WithConstants.

End ThreeDot.

(** ** Vocabulary of the further properties *)

Module MoreSpec.

Import Middleware Diffs DiffsSpec.

Section WithConstants.
Context `{!Constants, !Utils}.

(** The events whose handler moves the target branch to the primary
    branch: post-write and many-to-many events on a Dolt model. *)
Definition forces_primary (ev : Event) : bool :=
  match ev with
  | PostSave instance _ | M2MChanged instance _ _ => is_dolt_model (type_of instance)
  | PreDelete _ => false
  end.

(** The events for which the handlers record no description. *)
Definition undescribed (ev : Event) : bool :=
  match ev with
  | PostSave instance _ | M2MChanged instance _ _ =>
      negb (is_dolt_model (type_of instance))
      && negb (bool_decide (type_of instance = ObjectChange))
  | PreDelete _ => true
  end.

(** The content types for which the enumeration step builds a select. *)
Definition candidate (ct : ContentType) : bool :=
  match ct_model_class ct with
  | Some model => bool_decide (is_Some (diff_table_for_model model))
  | None => false
  end.

(** The selects the enumeration step builds, one for each candidate. *)
Definition diff_count_selects (from_c to_c : string) (cts : list ContentType)
  : list Select :=
  List.flat_map
    (fun ct =>
       match ct_model_class ct with
       | None => []
       | Some model =>
           match diff_table_for_model model with
           | None => []
           | Some _ =>
               [{| sel_app_label := ct_app_label ct;
                   sel_model := ct_model ct;
                   sel_table := db_table model;
                   sel_from_commit := from_c;
                   sel_to_commit := to_c |}]
           end
       end) cts.

(** A candidate whose label, model name and table name leave the text of
    its select as written. *)
Definition plainly_named (ct : ContentType) : bool :=
  match ct_model_class ct with
  | Some model =>
      negb (candidate ct)
      || Py.plain (ct_app_label ct) && Py.plain (ct_model ct)
         && Py.identifier (db_table model)
  | None => true
  end.

(** Every value the enumeration step splices into its statement leaves
    the text as written. *)
Definition spliced_plainly (db : Database) (from_c to_c : string) : bool :=
  Py.plain from_c && Py.plain to_c && forallb plainly_named (content_types db).

End WithConstants.

Definition has_pk (k : Z) (r : DiffRow) : bool := row_pk r =? k.

Definition known_diff_type (d : DiffRecord) : bool :=
  String.eqb (diff_type d) "added"
  || String.eqb (diff_type d) "modified"
  || String.eqb (diff_type d) "removed".

End MoreSpec.

Module Example2.

Definition commit_model : ThreeDot.CommitModel :=
  {| ThreeDot.merge_base := fun _ _ => Some "c1" |}.

(** A view that fails as a write to the user model does on the branch
    ["feature"]. *)
Definition rejected_write : string :=
  @Routers.write_error Example.constants
    {| Routers.global_router_enabled := true;
       Routers.active_branch := "feature" |}
    Example.user_model.

Definition rejected_view (request : Middleware.Request) (active : string)
  : Middleware.Request * string * Py.result RequestMiddleware.Response :=
  (request, active, Py.Raise (Py.DoltError rejected_write)).

(** A checkout the engine refuses. *)
Definition checkout_refused (b : Models.Branch) (active : string)
  : Py.result string :=
  Py.Raise (Py.ProgrammingError "working set has conflicts").

Definition develop_request : Middleware.Request :=
  {| Middleware.path := "/dcim/devices/";
     Middleware.session := {[ "dolt-branch" := "develop" ]};
     Middleware.headers := ∅;
     Middleware.messages := [] |}.

(** A scope that recorded a description holding a single quote. *)
Definition quoted_scope : Middleware.AutoDoltCommit :=
  {| Middleware.request := Example.plain_request "/dcim/devices/";
     Middleware.branch := "main";
     Middleware.commit := true;
     Middleware.changes := ["Renamed to it's"];
     Middleware.instances := [] |}.

(** A checkout the engine accepts. *)
Definition checkout_ok (b : Models.Branch) (active : string) : Py.result string :=
  Py.Ok (Models.name b).

End Example2.

(** * Properties *)

(** ** Python-level helpers *)

Section PyFacts.

Lemma prefix_app (n rest : string) : String.prefix n (n +:+ rest) = true.
Proof. induction n as [|c n IH]; simpl; [by destruct rest|]. by destruct (Ascii.ascii_dec c c). Qed.

Lemma contains_prefix (n hay : string) :
  String.prefix n hay = true -> Py.contains n hay = true.
Proof. intros H. destruct hay; simpl in *; by rewrite H. Qed.

Lemma contains_app_r (n pre hay : string) :
  Py.contains n hay = true -> Py.contains n (pre +:+ hay) = true.
Proof.
  intros H. induction pre as [|c pre IH]; simpl; [done|].
  rewrite IH. apply orb_true_r.
Qed.

(** A string contains whatever is spliced into it. *)
Lemma contains_splice (n pre post : string) :
  Py.contains n (pre +:+ n +:+ post) = true.
Proof. apply contains_app_r, contains_prefix, prefix_app. Qed.

Context {A : Type} (key : A -> Z).


Lemma insert_by_perm (x : A) (l : list A) : Py.insert_by key x l ≡ₚ x :: l.
Proof.
  induction l as [|y l IH]; simpl; [done|].
  destruct (key x <=? key y); [done|].
  rewrite IH. apply perm_swap.
Qed.

Lemma sorted_perm (l : list A) : Py.sorted key l ≡ₚ l.
Proof.
  induction l as [|x l IH]; simpl; [done|].
  unfold Py.sorted in IH. by rewrite insert_by_perm, IH.
Qed.

Lemma insert_by_hdrel (a x : A) (l : list A) :
  (Py.key_le key) a x -> HdRel (Py.key_le key) a l -> HdRel (Py.key_le key) a (Py.insert_by key x l).
Proof.
  intros Hax Hl. destruct l as [|y l]; simpl; [by constructor|].
  destruct (key x <=? key y); constructor; [done|].
  by inversion Hl.
Qed.

Lemma insert_by_sorted (x : A) (l : list A) :
  Sorted (Py.key_le key) l -> Sorted (Py.key_le key) (Py.insert_by key x l).
Proof.
  induction 1 as [|y l Hs IH Hhd]; simpl; [by repeat constructor|].
  destruct (key x <=? key y) eqn:E.
  - constructor; [by constructor|]. constructor. unfold Py.key_le. lia.
  - constructor; [done|]. apply insert_by_hdrel; [|done]. unfold Py.key_le. lia.
Qed.

Lemma sorted_sorted (l : list A) : Sorted (Py.key_le key) (Py.sorted key l).
Proof.
  induction l as [|x l IH]; simpl; [constructor|].
  by apply insert_by_sorted.
Qed.

Lemma filter_perm (f : A -> bool) (l1 l2 : list A) :
  l1 ≡ₚ l2 -> List.filter f l1 ≡ₚ List.filter f l2.
Proof.
  induction 1 as [|x l1 l2 _ IH|x y l|l1 l2 l3 _ IH1 _ IH2]; simpl.
  - done.
  - destruct (f x); by rewrite IH.
  - destruct (f x), (f y); try done. apply perm_swap.
  - by rewrite IH1.
Qed.

Lemma sorted_nil_inv (l : list A) : Py.sorted key l = [] -> l = [].
Proof.
  intros H. pose proof (sorted_perm l) as Hp. rewrite H in Hp.
  by apply Permutation_nil in Hp.
Qed.

End PyFacts.

(** ** The auto-commit context manager *)

Import Middleware MiddlewareSpec.

Section MiddlewareFacts.
Context `{!Constants, !Utils, !Models.Engine}.

Lemma kwargs_post_save_created instance created :
  kwargs_of (PostSave instance created) !! "created" = Some (Py.VBool created).
Proof. reflexivity. Qed.

Lemma kwargs_m2m_created instance action pk_set :
  kwargs_of (M2MChanged instance action pk_set) !! "created" = None.
Proof. reflexivity. Qed.

Lemma kwargs_m2m_action instance action pk_set :
  kwargs_of (M2MChanged instance action pk_set) !! "action" = Some (Py.VStr action).
Proof. reflexivity. Qed.

Lemma kwargs_m2m_pk_set instance action pk_set :
  kwargs_of (M2MChanged instance action pk_set) !! "pk_set"
  = Some (match pk_set with Some s => Py.VSet s | None => Py.VNone end).
Proof. reflexivity. Qed.

(** The handlers never raise on the notifications Django sends. *)
Lemma handle_update_no_raise self instance ev :
  (exists created, ev = PostSave instance created)
  \/ (exists action pk_set, ev = M2MChanged instance action pk_set) ->
  snd (_handle_update self instance (kwargs_of ev)) = None.
Proof.
  intros [[created ->]|(action & pk_set & ->)]; unfold _handle_update.
  - by rewrite kwargs_post_save_created.
  - rewrite kwargs_m2m_created, kwargs_m2m_action, kwargs_m2m_pk_set. simpl.
    destruct (_ || _); [|done]. by destruct pk_set as [s|]; simpl; [destruct (negb _)|].
Qed.

Lemma observe_commit self ev :
  commit (observe self ev) = commit self || marks_dirty ev.
Proof.
  destruct ev as [instance created|instance action pk_set|instance];
    unfold observe, _handle_update, _handle_delete.
  - rewrite kwargs_post_save_created. simpl. by rewrite orb_true_r.
  - rewrite kwargs_m2m_created, kwargs_m2m_action, kwargs_m2m_pk_set. simpl.
    unfold added_or_removed.
    destruct (is_dolt_model _), (bool_decide _), (_ || _); simpl;
      try (by rewrite orb_false_r);
      destruct pk_set as [s|]; simpl; try (by rewrite orb_false_r);
      destruct (bool_decide (s = ∅)); simpl;
      by rewrite ?orb_false_r, ?orb_true_r.
  - simpl. by rewrite orb_true_r.
Qed.

Lemma observe_changes self ev :
  changes (observe self ev) = changes self ++ descriptions ev.
Proof.
  destruct ev as [instance created|instance action pk_set|instance];
    unfold observe, _handle_update, _handle_delete, descriptions.
  - rewrite kwargs_post_save_created. simpl.
    destruct (is_dolt_model _), (bool_decide (_ = ObjectChange)); simpl;
      by rewrite <- ?app_assoc, ?app_nil_r.
  - rewrite kwargs_m2m_created, kwargs_m2m_action, kwargs_m2m_pk_set. simpl.
    destruct (is_dolt_model _), (bool_decide (_ = ObjectChange)), (_ || _);
      simpl; try (by rewrite <- ?app_assoc, ?app_nil_r);
      destruct pk_set as [s|]; simpl; try (by rewrite <- ?app_assoc, ?app_nil_r);
      destruct (bool_decide (s = ∅)); simpl;
      by rewrite <- ?app_assoc, ?app_nil_r.
  - simpl. by rewrite app_nil_r.
Qed.

Lemma handle_update_instances self instance kwargs :
  instances (fst (_handle_update self instance kwargs)) = instances self.
Proof.
  unfold _handle_update.
  destruct (is_dolt_model _), (bool_decide (_ = ObjectChange)),
    (bool_decide (is_Some _)); simpl; try done;
    (destruct (kwargs !! "action") as [[| |a|]|]; simpl; try done;
     destruct (_ || _); simpl; try done;
     destruct (kwargs !! "pk_set") as [v|]; simpl; try done;
     by destruct (Py.truthy v)).
Qed.

Lemma handle_update_request self instance kwargs :
  request (fst (_handle_update self instance kwargs)) = request self.
Proof.
  unfold _handle_update.
  destruct (is_dolt_model _), (bool_decide (_ = ObjectChange)),
    (bool_decide (is_Some _)); simpl; try done;
    (destruct (kwargs !! "action") as [[| |a|]|]; simpl; try done;
     destruct (_ || _); simpl; try done;
     destruct (kwargs !! "pk_set") as [v|]; simpl; try done;
     by destruct (Py.truthy v)).
Qed.

Lemma observe_instances self ev : instances (observe self ev) = instances self.
Proof. destruct ev; simpl; try done; apply handle_update_instances. Qed.

Lemma observe_request self ev : request (observe self ev) = request self.
Proof. destruct ev; simpl; try done; apply handle_update_request. Qed.

(** *** A whole unit of work: the handlers fold over its events *)

Lemma observed_commit events : forall self,
  commit (foldl observe self events) = commit self || existsb marks_dirty events.
Proof.
  induction events as [|ev events IH]; intros self; simpl.
  - by rewrite orb_false_r.
  - by rewrite IH, observe_commit, orb_assoc.
Qed.

Lemma observed_changes events : forall self,
  changes (foldl observe self events)
  = changes self ++ List.flat_map descriptions events.
Proof.
  induction events as [|ev events IH]; intros self; simpl.
  - by rewrite app_nil_r.
  - by rewrite IH, observe_changes, <- app_assoc.
Qed.

Lemma observed_instances events : forall self,
  instances (foldl observe self events) = instances self.
Proof.
  induction events as [|ev events IH]; intros self; simpl; [done|].
  by rewrite IH, observe_instances.
Qed.

Lemma observed_request events : forall self,
  request (foldl observe self events) = request self.
Proof.
  induction events as [|ev events IH]; intros self; simpl; [done|].
  by rewrite IH, observe_request.
Qed.

Lemma commit_message_synthesized self :
  instances self = [] ->
  _get_commit_message self = synthesized_message (changes self).
Proof.
  intros Hi. unfold _get_commit_message, synthesized_message.
  rewrite Hi. by destruct (changes self).
Qed.

(** *** Subscriptions *)

Lemma connected_connect receiver uid sig :
  connected uid (connect receiver uid sig) = true.
Proof.
  unfold connect. destruct (connected uid sig) eqn:E; [done|].
  unfold connected. rewrite existsb_app. simpl.
  by rewrite String.eqb_refl, orb_true_r.
Qed.

Lemma connected_elem uid sig :
  connected uid sig = true <-> uid ∈ List.map fst sig.
Proof.
  unfold connected. rewrite existsb_exists, list_elem_of_In, in_map_iff.
  split.
  - intros (kr & Hin & Heq). apply String.eqb_eq in Heq. eauto.
  - intros (kr & Heq & Hin). exists kr. split; [done|]. by apply String.eqb_eq.
Qed.

Lemma keys_connect receiver uid sig :
  NoDup (List.map fst sig) -> NoDup (List.map fst (connect receiver uid sig)).
Proof.
  intros Hnd. unfold connect. destruct (connected uid sig) eqn:E; [done|].
  rewrite List.map_app. simpl. apply NoDup_app. split_and!; [done| |].
  - intros k Hk Hk'. apply list_elem_of_singleton in Hk' as ->.
    apply connected_elem in Hk. congruence.
  - apply NoDup_singleton.
Qed.

Lemma connected_disconnect uid sig :
  NoDup (List.map fst sig) -> connected uid (disconnect uid sig) = false.
Proof.
  induction sig as [|kr sig IH]; simpl; [done|].
  intros Hnd. apply NoDup_cons in Hnd as [Hnotin Hnd].
  destruct (String.eqb (fst kr) uid) eqn:E.
  - apply String.eqb_eq in E. subst uid.
    apply not_true_is_false. by rewrite connected_elem.
  - simpl. rewrite E. simpl. by apply IH.
Qed.

Lemma enter_subscribes self_id sigs : subscribed (__enter__ self_id sigs) = true.
Proof. unfold subscribed, __enter__. simpl. by rewrite !connected_connect. Qed.

Lemma enter_well_keyed self_id sigs :
  well_keyed sigs -> well_keyed (__enter__ self_id sigs).
Proof. intros (?&?&?). unfold well_keyed, __enter__. simpl. split_and!; by apply keys_connect. Qed.

(** The commit of a plain message is made, under the fixed author. *)
Lemma commit_plain self engine :
  Py.plain (_get_commit_message self) = true ->
  _commit self engine
  = Py.Ok (engine ++
           [{| Models.flags := ["--all"; "--force"; "--allow-empty"];
               Models.message := _get_commit_message self;
               Models.author := "nautobot <nautobot@ntc.com>" |}]).
Proof. intros Hp. unfold _commit, Models.Commit_save. by rewrite Hp. Qed.

Lemma exit_raises_clean self w :
  commit self = false -> exit_raises self w = None.
Proof. intros Hc. unfold exit_raises. rewrite Hc. by destruct (is_health_check _). Qed.

Lemma exit_raises_plain self w :
  Py.plain (_get_commit_message self) = true -> exit_raises self w = None.
Proof.
  intros Hp. unfold exit_raises. rewrite (commit_plain _ _ Hp).
  by destruct (is_health_check _), (commit self).
Qed.

Lemma exit_raises_engine self w w' :
  engine w' = engine w -> exit_raises self w' = exit_raises self w.
Proof. intros He. unfold exit_raises. by rewrite He. Qed.

Lemma observed_message request branch events :
  _get_commit_message (foldl observe (__init__ request branch) events)
  = synthesized_message (List.flat_map descriptions events).
Proof.
  rewrite commit_message_synthesized by by rewrite observed_instances.
  by rewrite observed_changes.
Qed.

(** An exit that raises leaves the world as it found it. *)
Lemma exit_raised self exc w e :
  exit_raises self w = Some e -> __exit__ self exc w = w.
Proof.
  unfold exit_raises, __exit__.
  destruct (is_health_check _); [done|]. destruct (commit self); [|done].
  by destruct (_commit self (engine w)).
Qed.

(** An exit that does not raise, outside a health check, disconnects. *)
Lemma exit_signals self exc w :
  is_health_check (request self) = false ->
  exit_raises self w = None ->
  signals (__exit__ self exc w)
  = {| post_save := disconnect "dolt_commit_update" (post_save (signals w));
       m2m_changed := disconnect "dolt_commit_update" (m2m_changed (signals w));
       pre_delete := disconnect "dolt_commit_delete" (pre_delete (signals w)) |}.
Proof.
  unfold exit_raises, __exit__. intros ->.
  destruct (commit self); [|done].
  by destruct (_commit self (engine w)).
Qed.

(** Outside a health check an exit that does not raise removes the three
    subscriptions, whether or not the block raised. *)
Lemma exit_unsubscribes self exc w :
  is_health_check (request self) = false ->
  exit_raises self w = None ->
  well_keyed (signals w) ->
  unsubscribed (signals (__exit__ self exc w)) = true.
Proof.
  intros Hh Hr (?&?&?). rewrite exit_signals by done.
  unfold unsubscribed. simpl. by rewrite !connected_disconnect.
Qed.

(** On a health check the exit returns before anything else. *)
Lemma exit_health_check self exc w :
  is_health_check (request self) = true -> __exit__ self exc w = w.
Proof. intros Hh. unfold __exit__. by rewrite Hh. Qed.

Lemma call_health_check_signals self_id request events exc w :
  is_health_check request = true ->
  signals (fst (__call__ self_id request events exc w))
  = __enter__ self_id (signals w).
Proof.
  intros Hh. unfold __call__. simpl.
  rewrite exit_health_check; [done|]. by rewrite observed_request.
Qed.

Lemma call_engine_clean self_id request events exc w :
  is_health_check request = false ->
  existsb marks_dirty events = false ->
  engine (fst (__call__ self_id request events exc w)) = engine w.
Proof.
  intros Hh Hd. unfold __call__, __exit__. simpl.
  rewrite observed_request. simpl. rewrite Hh.
  by rewrite observed_commit, Hd.
Qed.

Lemma call_engine_dirty self_id request events exc w :
  is_health_check request = false ->
  existsb marks_dirty events = true ->
  Py.plain (synthesized_message (List.flat_map descriptions events)) = true ->
  engine (fst (__call__ self_id request events exc w))
  = engine w ++
    [{| Models.flags := ["--all"; "--force"; "--allow-empty"];
        Models.message := synthesized_message (List.flat_map descriptions events);
        Models.author := "nautobot <nautobot@ntc.com>" |}].
Proof.
  intros Hh Hd Hp. unfold __call__, __exit__. simpl.
  rewrite observed_request. simpl. rewrite Hh.
  rewrite observed_commit, Hd. simpl.
  assert (Hmsg : _get_commit_message
                   (foldl observe (__init__ request (branch_from_request request)) events)
                 = synthesized_message (List.flat_map descriptions events)).
  { rewrite commit_message_synthesized by by rewrite observed_instances.
    by rewrite observed_changes. }
  rewrite commit_plain by by rewrite Hmsg.
  simpl. by rewrite Hmsg.
Qed.

(** C4 (as amended): outside a health check, a unit of work none of
    whose observed events marks it dirty (a post-write event, created or
    updated; a many-to-many event that added or removed a non-empty set of
    keys; a delete) issues no commit; and one with at least one such event,
    whose synthesized message holds no single quote and no backslash, issues
    exactly one commit, whose message is the change descriptions of the
    events, in event order, joined by "; ", and the fixed message "auto dolt
    commit" when no description was recorded. *)
Theorem C4_one_commit_iff_dirty self_id request events exc w :
  is_health_check request = false ->
  (existsb marks_dirty events = false ->
   engine (fst (__call__ self_id request events exc w)) = engine w)
  /\ (existsb marks_dirty events = true ->
      Py.plain (synthesized_message (List.flat_map descriptions events)) = true ->
      engine (fst (__call__ self_id request events exc w))
      = engine w ++
        [{| Models.flags := ["--all"; "--force"; "--allow-empty"];
            Models.message := synthesized_message (List.flat_map descriptions events);
            Models.author := "nautobot <nautobot@ntc.com>" |}]).
Proof.
  intros Hh. split.
  - by apply call_engine_clean.
  - by apply call_engine_dirty.
Qed.

Lemma call_health_check_engine self_id request events exc w :
  is_health_check request = true ->
  engine (fst (__call__ self_id request events exc w)) = engine w.
Proof.
  intros Hh. unfold __call__. simpl. rewrite exit_health_check; [done|].
  by rewrite observed_request.
Qed.

(** C6: when the request of the unit of work is a health-check probe, the
    exit issues no commit, whatever the dirty flag of the context manager
    says: the engine's log of commit statements is as it was. *)
Theorem C6_health_check_never_commits self exc w :
  is_health_check (request self) = true ->
  engine (__exit__ self exc w) = engine w.
Proof. intros Hh. by rewrite exit_health_check. Qed.

(** C10: the instances list is empty in every state a unit of work
    reaches: both handlers leave it as it is, whatever their keyword
    arguments, so it is empty after any sequence of observed events; hence
    the commit message is the join of the change descriptions when there
    are some and "auto dolt commit" otherwise, never a join of
    instances. *)
Theorem C10_instances_always_empty request branch events :
  (forall self instance kwargs,
     instances (fst (_handle_update self instance kwargs)) = instances self
     /\ instances (_handle_delete self instance kwargs) = instances self)
  /\ instances (foldl observe (__init__ request branch) events) = []
  /\ _get_commit_message (foldl observe (__init__ request branch) events)
     = match changes (foldl observe (__init__ request branch) events) with
       | [] => "auto dolt commit"
       | cs => Py.join "; " cs
       end.
Proof.
  split_and!.
  - intros self instance kwargs. split; [apply handle_update_instances|done].
  - by rewrite observed_instances.
  - rewrite commit_message_synthesized by by rewrite observed_instances.
    unfold synthesized_message. by destruct (changes _).
Qed.

(** C2 (as amended): a post-write or many-to-many event leaves the dirty
    flag set exactly when it is a post-write event, created or updated, or
    a many-to-many event that added or removed a non-empty set of keys;
    and it appends a description for an instance of a Dolt model and one
    for an ObjectChange instance, and for no other, whether or not it marks
    the unit of work dirty. *)
Theorem C2_handle_update_effect self ev :
  commit (observe self ev) = commit self || marks_dirty ev
  /\ changes (observe self ev) = changes self ++ descriptions ev.
Proof. split; [apply observe_commit|apply observe_changes]. Qed.

End MiddlewareFacts.

(** ** Branch resolution *)

Section BranchFacts.
Context `{!Constants, !Utils}.

Lemma get_absent dolt_branches pk :
  pk ∉ List.map Models.name dolt_branches ->
  Models.Branch_objects_get dolt_branches pk = Py.Raise Py.ObjectDoesNotExist.
Proof.
  intros Hn. unfold Models.Branch_objects_get.
  destruct (List.find _ dolt_branches) as [b|] eqn:E; [|done].
  apply find_some in E as [Hin Heq]. apply String.eqb_eq in Heq.
  exfalso. apply Hn. rewrite list_elem_of_In, in_map_iff. eauto.
Qed.

Lemma get_present dolt_branches pk :
  pk ∈ List.map Models.name dolt_branches ->
  exists b, Models.Branch_objects_get dolt_branches pk = Py.Ok b
            /\ Models.name b = pk /\ b ∈ dolt_branches.
Proof.
  intros Hin. unfold Models.Branch_objects_get.
  destruct (List.find _ dolt_branches) as [b|] eqn:E.
  - apply find_some in E as [Hb Heq]. apply String.eqb_eq in Heq.
    exists b. by rewrite list_elem_of_In.
  - exfalso. rewrite list_elem_of_In, in_map_iff in Hin.
    destruct Hin as (b & Hname & Hb).
    apply (find_none _ _ E) in Hb. rewrite Hname, String.eqb_refl in Hb. done.
Qed.

(** C7 (as amended): the branch name is read from the session, else from
    the headers, else it is the primary branch; and when the requested
    name is not in the branch table while the primary branch is, the
    resolution returns the primary branch without raising, queues a
    warning, and pins the session to the primary branch. *)
Theorem C7_branch_resolution dolt_branches request :
  (forall b, session request !! DOLT_BRANCH_KEYWORD = Some b ->
             branch_from_request request = b)
  /\ (forall b, session request !! DOLT_BRANCH_KEYWORD = None ->
                headers request !! DOLT_BRANCH_KEYWORD = Some b ->
                branch_from_request request = b)
  /\ (session request !! DOLT_BRANCH_KEYWORD = None ->
      headers request !! DOLT_BRANCH_KEYWORD = None ->
      branch_from_request request = DOLT_DEFAULT_BRANCH)
  /\ (branch_from_request request ∉ List.map Models.name dolt_branches ->
      DOLT_DEFAULT_BRANCH ∈ List.map Models.name dolt_branches ->
      exists b msg,
        snd (get_branch dolt_branches request) = Py.Ok b
        /\ Models.name b = DOLT_DEFAULT_BRANCH
        /\ b ∈ dolt_branches
        /\ messages (fst (get_branch dolt_branches request))
           = messages request ++ [(warning, msg)]
        /\ Py.contains (branch_from_request request) msg = true
        /\ session (fst (get_branch dolt_branches request)) !! DOLT_BRANCH_KEYWORD
           = Some DOLT_DEFAULT_BRANCH).
Proof.
  split_and!.
  - intros b Hs. unfold branch_from_request. by rewrite Hs.
  - intros b Hs Hh. unfold branch_from_request. by rewrite Hs, Hh.
  - intros Hs Hh. unfold branch_from_request. by rewrite Hs, Hh.
  - intros Habs Hdef. apply get_absent in Habs.
    apply get_present in Hdef as (b & Hget & Hname & Hin).
    unfold get_branch. rewrite Habs. simpl. rewrite Hget.
    eexists b, _. split_and!; try done.
    + do 5 apply contains_app_r. apply contains_prefix, prefix_app.
    + apply lookup_insert_eq.
Qed.

End BranchFacts.

(** ** The routing policy *)

Import Routers.

Section RouterFacts.
Context `{!Constants, !Utils}.

Lemma write_error_names_model rt model :
  Py.contains (model_name model) (write_error rt model) = true.
Proof. unfold write_error. cbv zeta. apply contains_splice. Qed.

Lemma write_error_names_branch rt model :
  Py.contains (active_branch rt) (write_error rt model) = true.
Proof.
  unfold write_error. cbv zeta.
  do 7 apply contains_app_r. apply contains_prefix, prefix_app.
Qed.

(** C5 (as amended): with the global router enabled, a write to a model
    that is neither versioned nor a Dolt model raises a DoltError whose
    message names the model and the active branch when the active branch
    is not the primary branch, and is routed to the global connection,
    without raising, when it is. *)
Theorem C5_write_to_global_model rt model :
  global_router_enabled rt = true ->
  is_dolt_model model = false ->
  is_versioned_model model = false ->
  (active_branch rt <> DOLT_DEFAULT_BRANCH ->
   db_for_write rt model = Py.Raise (Py.DoltError (write_error rt model))
   /\ Py.contains (model_name model) (write_error rt model) = true
   /\ Py.contains (active_branch rt) (write_error rt model) = true)
  /\ (active_branch rt = DOLT_DEFAULT_BRANCH ->
      db_for_write rt model = Py.Ok (Some GLOBAL_DB)).
Proof.
  intros He Hd Hv. unfold db_for_write, branch_is_not_primary.
  rewrite He, Hd, Hv. simpl. split.
  - intros Hne. apply String.eqb_neq in Hne. rewrite Hne. simpl.
    split_and!; [done|apply write_error_names_model|apply write_error_names_branch].
  - intros Heq. apply String.eqb_eq in Heq. by rewrite Heq.
Qed.

(** With the router switched off every write is answered with no
    opinion, on any branch. *)
Lemma db_for_write_disabled rt model :
  global_router_enabled rt = false -> db_for_write rt model = Py.Ok None.
Proof. intros He. unfold db_for_write. by rewrite He. Qed.

End RouterFacts.

(** ** The diff engine *)

Import Diffs DiffsSpec.

Section DiffFacts.
Context `{!Constants, !Utils, !DiffFactory, !Models.Engine}.

Lemma filter_all {A} (f : A -> bool) (l : list A) :
  (forall x, x ∈ l -> f x = true) -> List.filter f l = l.
Proof.
  induction l as [|x l IH]; intros Hall; simpl; [done|].
  rewrite (Hall x) by constructor. f_equal. apply IH. intros y Hy. apply Hall. by constructor.
Qed.

Lemma filter_none {A} (f : A -> bool) (l : list A) :
  (forall x, x ∈ l -> f x = false) -> List.filter f l = [].
Proof.
  induction l as [|x l IH]; intros Hall; simpl; [done|].
  rewrite (Hall x) by constructor. apply IH. intros y Hy. apply Hall. by constructor.
Qed.

(** *** The enumeration step *)

(** The second set comprehension runs over the iterator the first one
    has exhausted: the set of model names is empty and no content type
    passes the final filter. *)
Lemma content_types_with_diffs_empty db from_c to_c cts :
  content_types_with_diffs db from_c to_c = Py.Ok cts -> cts = [].
Proof.
  unfold content_types_with_diffs.
  destruct (execute_union _ _) as [res|e]; simpl; [|done].
  intros [= <-]. apply filter_none. intros ct _.
  rewrite (bool_decide_eq_false_2 (ct_model ct ∈ (∅ : gset string)))
    by apply not_elem_of_empty.
  apply andb_false_r.
Qed.

(** *** The rows of one entity type *)

Lemma tagged_annotate_found root root' id_of model ds r d :
  List.find (fun d => bool_decide (id_of d = Some (pk r))) ds = Some d ->
  tagged root' (annotate root id_of model ds r) = String.eqb root root'.
Proof. intros Hf. unfold tagged, root_tag, annotate. simpl. by rewrite Hf. Qed.

Lemma tagged_annotate_to model ds r :
  tagged "from" (annotate "to" to_id model ds r) = false.
Proof.
  destruct (List.find (fun d => bool_decide (to_id d = Some (pk r))) ds) as [d|] eqn:E.
  - by rewrite (tagged_annotate_found _ _ _ _ _ _ _ E).
  - unfold tagged, root_tag, annotate. simpl. by rewrite E.
Qed.

Lemma tagged_annotate_from model ds ids r :
  (forall i, i ∈ ids -> exists d, d ∈ ds /\ from_id d = i) ->
  pk_in ids r = true ->
  tagged "from" (annotate "from" from_id model ds r) = true.
Proof.
  intros Hids Hin. unfold pk_in in Hin. apply bool_decide_eq_true in Hin.
  destruct (Hids _ Hin) as (d & Hd & Hfrom).
  destruct (List.find (fun d => bool_decide (from_id d = Some (pk r))) ds) as [d'|] eqn:E.
  - by rewrite (tagged_annotate_found _ _ _ _ _ _ _ E).
  - exfalso. apply list_elem_of_In in Hd. apply (find_none _ _ E) in Hd.
    by rewrite bool_decide_eq_true_2 in Hd.
Qed.

Lemma to_queryset_not_from db model from_c to_c r :
  r ∈ to_queryset db model from_c to_c -> tagged "from" r = false.
Proof.
  unfold to_queryset. rewrite list_elem_of_In, in_map_iff.
  intros (m & <- & _). apply tagged_annotate_to.
Qed.

Lemma from_queryset_from db model from_c to_c r :
  r ∈ from_queryset db model from_c to_c -> tagged "from" r = true.
Proof.
  unfold from_queryset. rewrite list_elem_of_In, in_map_iff.
  intros (m & <- & Hm). apply filter_In in Hm as [_ Hm].
  eapply tagged_annotate_from; [|exact Hm].
  intros i Hi. rewrite list_elem_of_In, in_map_iff in Hi.
  destruct Hi as (d & <- & Hd). apply filter_In in Hd as [Hd _].
  exists d. by rewrite list_elem_of_In.
Qed.

(** *** The loop *)

Lemma diff_package_inv db from_c to_c ct pkg :
  diff_package db from_c to_c ct = Py.Ok (Some pkg) ->
  exists model,
    ct_model_class ct = Some model
    /\ table pkg
       = {| table_content_type := ct;
            table_rows :=
              Py.sorted row_pk (to_queryset db model from_c to_c
                                ++ from_queryset db model from_c to_c) |}
    /\ table_rows (table pkg) <> [].
Proof.
  unfold diff_package. destruct (ct_model_class ct) as [model|]; [|done].
  fold row_pk.
  destruct (Py.sorted _ _) as [|r rows] eqn:E; [done|].
  intros [= <-]. exists model. simpl. by rewrite E.
Qed.

Lemma diff_results_elem db from_c to_c cts : forall pkgs pkg,
  diff_results db from_c to_c cts = Py.Ok pkgs ->
  pkg ∈ pkgs ->
  exists ct, ct ∈ cts /\ diff_package db from_c to_c ct = Py.Ok (Some pkg).
Proof.
  induction cts as [|ct cts IH]; intros pkgs pkg; simpl.
  - intros [= <-] Hin. by apply elem_of_nil in Hin.
  - destruct (diff_package db from_c to_c ct) as [p|e] eqn:Ep; simpl; [|done].
    destruct (diff_results db from_c to_c cts) as [rest|e] eqn:Er; simpl; [|done].
    intros [= <-] Hin.
    assert (Hrest : pkg ∈ rest -> exists ct0, ct0 ∈ ct :: cts
              /\ diff_package db from_c to_c ct0 = Py.Ok (Some pkg)).
    { intros Hr. destruct (IH rest pkg eq_refl Hr) as (ct0 & Hct0 & Hp).
      exists ct0. split; [by constructor|done]. }
    destruct p as [pkg0|]; [|by apply Hrest].
    apply elem_of_cons in Hin as [->|Hin]; [|by apply Hrest].
    exists ct. split; [constructor|done].
Qed.

Lemma diff_package_skips db from_c to_c ct model :
  ct_model_class ct = Some model ->
  diffs db model from_c to_c = [] ->
  diff_package db from_c to_c ct = Py.Ok None.
Proof.
  intros Hm Hd. unfold diff_package, to_queryset, from_queryset.
  rewrite Hm, Hd. simpl.
  rewrite !(filter_none (pk_in [])); [done|..];
    intros r _; unfold pk_in; apply bool_decide_eq_false_2, not_elem_of_nil.
Qed.

(** C8: in the list the loop of two_dot_diffs builds, over whatever
    content types the enumeration hands it, the rows of every emitted
    package that are tagged root = "from" are exactly the rows of the
    model's table as of from_commit whose primary key is the from_id of a
    diff row of type "removed", each with its annotation; the other rows
    are the "to" rows; and the rows are in ascending order of primary
    key. *)
Theorem C8_from_rows_and_order db from_c to_c cts pkgs pkg :
  diff_results db from_c to_c cts = Py.Ok pkgs ->
  pkg ∈ pkgs ->
  exists model,
    table_content_type (table pkg) ∈ cts
    /\ ct_model_class (table_content_type (table pkg)) = Some model
    /\ List.filter (tagged "from") (table_rows (table pkg))
       ≡ₚ List.map
            (annotate "from" from_id model (diffs db model from_c to_c))
            (List.filter
               (fun r =>
                  bool_decide
                    (Some (pk r)
                     ∈ List.map from_id
                         (List.filter (fun d => String.eqb (diff_type d) "removed")
                            (diffs db model from_c to_c))))
               (as_of db from_c (db_table model)))
    /\ List.filter (fun r => negb (tagged "from" r)) (table_rows (table pkg))
       ≡ₚ to_queryset db model from_c to_c
    /\ Sorted (fun a b => row_pk a <= row_pk b) (table_rows (table pkg)).
Proof.
  intros Hres Hin.
  destruct (diff_results_elem _ _ _ _ _ _ Hres Hin) as (ct & Hct & Hp).
  destruct (diff_package_inv _ _ _ _ _ Hp) as (model & Hm & Ht & _).
  exists model. rewrite Ht. simpl. split_and!; try done.
  - rewrite (filter_perm _ _ _ (sorted_perm row_pk _)), List.filter_app.
    rewrite (filter_none (tagged "from") (to_queryset _ _ _ _))
      by apply to_queryset_not_from.
    rewrite (filter_all (tagged "from") (from_queryset _ _ _ _))
      by apply from_queryset_from.
    done.
  - rewrite (filter_perm _ _ _ (sorted_perm row_pk _)), List.filter_app.
    rewrite (filter_all _ (to_queryset _ _ _ _))
      by (intros r Hr; by rewrite (to_queryset_not_from _ _ _ _ _ Hr)).
    rewrite (filter_none _ (from_queryset _ _ _ _))
      by (intros r Hr; by rewrite (from_queryset_from _ _ _ _ _ Hr)).
    by rewrite app_nil_r.
  - apply (sorted_sorted row_pk).
Qed.

(** C9: for an entity type whose diff table holds no row for the two
    commits, the body of the loop of two_dot_diffs skips the type; so no
    package for that type is in the list the loop builds, over whatever
    content types it is handed, nor in the list two_dot_diffs returns. *)
Theorem C9_no_package_without_diff_rows db from_c to_c ct model :
  ct_model_class ct = Some model ->
  diffs db model from_c to_c = [] ->
  diff_package db from_c to_c ct = Py.Ok None
  /\ (forall cts pkgs pkg,
        diff_results db from_c to_c cts = Py.Ok pkgs ->
        pkg ∈ pkgs -> table_content_type (table pkg) <> ct)
  /\ (forall pkgs pkg,
        two_dot_diffs db (Some from_c) (Some to_c) = Py.Ok pkgs ->
        pkg ∈ pkgs -> table_content_type (table pkg) <> ct).
Proof.
  intros Hm Hd.
  pose proof (diff_package_skips _ _ _ _ _ Hm Hd) as Hskip.
  assert (Hloop : forall cts pkgs pkg,
            diff_results db from_c to_c cts = Py.Ok pkgs ->
            pkg ∈ pkgs -> table_content_type (table pkg) <> ct).
  { intros cts pkgs pkg Hres Hin Heq.
    destruct (diff_results_elem _ _ _ _ _ _ Hres Hin) as (ct0 & _ & Hp).
    destruct (diff_package_inv _ _ _ _ _ Hp) as (model0 & _ & Ht & _).
    rewrite Ht in Heq. simpl in Heq. subst ct0. congruence. }
  split_and!; [done|done|].
  intros pkgs pkg. unfold two_dot_diffs.
  destruct (negb _); [done|]. simpl.
  destruct (content_types_with_diffs db from_c to_c) as [cts|e]; simpl; [|done].
  apply Hloop.
Qed.

End DiffFacts.

(** * Concrete runs *)

Section ConcreteRuns.

#[local] Existing Instance Example.sql_engine.
#[local] Existing Instance Example.constants.
#[local] Existing Instance Example.utils.
#[local] Existing Instance Example.diff_factory.

Import Example.

(** C1: a health-check request. The exit returns before it reaches the
    three disconnect calls, so the subscriptions made on entry are still
    in place when the scope has exited. *)
Theorem C1_health_check_exit_keeps_subscriptions :
  let w := fst (__call__ 1 (plain_request "/health/") [] None fresh_world) in
  is_health_check (plain_request "/health/") = true
  /\ signals w = __enter__ 1 no_signals
  /\ post_save (signals w)
     = [("dolt_commit_update", {| owner := 1; method := handle_update |})]
  /\ m2m_changed (signals w)
     = [("dolt_commit_update", {| owner := 1; method := handle_update |})]
  /\ pre_delete (signals w)
     = [("dolt_commit_delete", {| owner := 1; method := handle_delete |})]
  /\ unsubscribed (signals w) = false.
Proof. by split_and!. Qed.

(** The same request on another path: the subscriptions are removed. *)
Example ordinary_exit_unsubscribes :
  signals (fst (__call__ 1 (plain_request "/dcim/devices/")
                  [PostSave a_device true] (Some (Py.ValueError "boom")) fresh_world))
  = no_signals.
Proof. reflexivity. Qed.

(** C2, as the specification words it, fails: the update of a branch
    (created flag false) does not qualify, yet it sets the dirty flag and
    appends a description; the creation of a device qualifies, yet it
    appends no description. *)
Lemma C2_update_sets_flag_and_description_is_independent :
  let self := __init__ (plain_request "/dcim/devices/") "main" in
  qualifies_as_specified (PostSave a_branch false) = false
  /\ commit (observe self (PostSave a_branch false)) = true
  /\ changes (observe self (PostSave a_branch false))
     = ["Updated branch " +:+ Py.dquote +:+ "feature" +:+ Py.dquote +:+ " "]
  /\ qualifies_as_specified (PostSave a_device true) = true
  /\ changes (observe self (PostSave a_device true)) = [].
Proof. by split_and!. Qed.

(** C3: three device rows changed between the two commits and devices
    have a registered diff table, yet the enumeration returns no content
    type: the iterator of non-empty counts is consumed by the set of
    application labels, and the set of model names is built from what is
    left of it. *)
Theorem C3_enumeration_omits_changed_types :
  diff_table_for_model device = Some "DeviceTable"
  /\ execute_union db
       [{| sel_app_label := "dcim"; sel_model := "device";
           sel_table := "dcim_device";
           sel_from_commit := "c1"; sel_to_commit := "c2" |}]
     = Py.Ok [("dcim", "device", 3)]
  /\ content_types_with_diffs db "c1" "c2" = Py.Ok []
  /\ two_dot_diffs db (Some "c1") (Some "c2") = Py.Ok [].
Proof. by split_and!. Qed.

(** Handed the device and site content types, the loop builds the device
    package. *)
Example loop_on_devices :
  diff_results db "c1" "c2" [ct_device; ct_site] = Py.Ok [device_package].
Proof. reflexivity. Qed.

(** C4, as the specification words it, fails: a unit of work whose only
    event is the update of a device (created flag false) holds no
    qualifying mutation, yet it issues a commit. *)
Lemma C4_update_only_work_commits :
  let events := [PostSave a_device false] in
  is_health_check (plain_request "/dcim/devices/") = false
  /\ existsb qualifies_as_specified events = false
  /\ engine (fst (__call__ 1 (plain_request "/dcim/devices/") events None fresh_world))
     = [{| Models.flags := ["--all"; "--force"; "--allow-empty"];
           Models.message := "auto dolt commit";
           Models.author := "nautobot <nautobot@ntc.com>" |}].
Proof. by split_and!. Qed.

Lemma C4_one_commit_iff_dirty_witness :
  let events := [PostSave a_branch true; PostSave a_device false;
                 M2MChanged a_branch "post_add" (Some {[ 4 ]})] in
  is_health_check (plain_request "/dolt/branches/") = false
  /\ existsb marks_dirty events = true
  /\ Py.plain (synthesized_message (List.flat_map descriptions events)) = true
  /\ engine (fst (__call__ 1 (plain_request "/dolt/branches/") events None fresh_world))
     = [{| Models.flags := ["--all"; "--force"; "--allow-empty"];
           Models.message :=
             "Created branch " +:+ Py.dquote +:+ "feature" +:+ Py.dquote
             +:+ " ; Updated branch " +:+ Py.dquote +:+ "feature" +:+ Py.dquote
             +:+ " ";
           Models.author := "nautobot <nautobot@ntc.com>" |}].
Proof.
  intros events.
  assert (H1 : is_health_check (plain_request "/dolt/branches/") = false)
    by reflexivity.
  assert (H2 : existsb marks_dirty events = true) by reflexivity.
  assert (H3 : Py.plain (synthesized_message (List.flat_map descriptions events)) = true)
    by reflexivity.
  split_and!; [exact H1|exact H2|exact H3|].
  exact (proj2 (C4_one_commit_iff_dirty 1 (plain_request "/dolt/branches/")
                  events None fresh_world H1) H2 H3).
Defined.

(** C5, as the specification words it, fails: with the global router
    switched off, a write to a model that is neither versioned nor a Dolt
    model, on a branch other than the primary one, raises nothing and is
    not routed to the global connection. *)
Lemma C5_router_switched_off :
  let rt := {| global_router_enabled := false; active_branch := "feature" |} in
  is_dolt_model user_model = false
  /\ is_versioned_model user_model = false
  /\ active_branch rt <> DOLT_DEFAULT_BRANCH
  /\ db_for_write rt user_model = Py.Ok None.
Proof. by split_and!. Qed.

Lemma C5_write_to_global_model_witness :
  let rt := {| global_router_enabled := true; active_branch := "feature" |} in
  global_router_enabled rt = true
  /\ is_dolt_model user_model = false
  /\ is_versioned_model user_model = false
  /\ active_branch rt <> DOLT_DEFAULT_BRANCH
  /\ db_for_write rt user_model = Py.Raise (Py.DoltError (write_error rt user_model))
  /\ Py.contains "User" (write_error rt user_model) = true
  /\ Py.contains "feature" (write_error rt user_model) = true.
Proof.
  intros rt.
  assert (He : global_router_enabled rt = true) by reflexivity.
  assert (Hd : is_dolt_model user_model = false) by reflexivity.
  assert (Hv : is_versioned_model user_model = false) by reflexivity.
  assert (Hne : active_branch rt <> DOLT_DEFAULT_BRANCH) by discriminate.
  split_and!; [exact He|exact Hd|exact Hv|exact Hne|..];
    apply (C5_write_to_global_model rt user_model He Hd Hv); exact Hne.
Defined.

Lemma C6_health_check_never_commits_witness :
  is_health_check (request dirty_health_check) = true
  /\ commit dirty_health_check = true
  /\ engine (__exit__ dirty_health_check None fresh_world) = engine fresh_world.
Proof.
  split_and!; [reflexivity|reflexivity|].
  exact (C6_health_check_never_commits dirty_health_check None fresh_world eq_refl).
Defined.

(** C7, as the specification words it, fails: the requested branch is
    not in the branch table and neither is the primary branch; the lookup
    of the primary branch raises. *)
Lemma C7_primary_branch_absent :
  branch_from_request feature_request = "feature"
  /\ ("feature" ∉ List.map Models.name [develop_branch])
  /\ snd (get_branch [develop_branch] feature_request)
     = Py.Raise Py.ObjectDoesNotExist.
Proof.
  split_and!; [reflexivity| |reflexivity].
  intros Hin. apply list_elem_of_singleton in Hin. discriminate Hin.
Qed.

Lemma C7_branch_resolution_witness :
  (branch_from_request feature_request
     ∉ List.map Models.name [develop_branch; main_branch])
  /\ (DOLT_DEFAULT_BRANCH ∈ List.map Models.name [develop_branch; main_branch])
  /\ exists b msg,
       snd (get_branch [develop_branch; main_branch] feature_request) = Py.Ok b
       /\ Models.name b = DOLT_DEFAULT_BRANCH
       /\ b ∈ [develop_branch; main_branch]
       /\ messages (fst (get_branch [develop_branch; main_branch] feature_request))
          = messages feature_request ++ [(warning, msg)]
       /\ Py.contains (branch_from_request feature_request) msg = true
       /\ session (fst (get_branch [develop_branch; main_branch] feature_request))
            !! DOLT_BRANCH_KEYWORD
          = Some DOLT_DEFAULT_BRANCH.
Proof.
  assert (Habs : branch_from_request feature_request
                 ∉ List.map Models.name [develop_branch; main_branch]).
  { intros Hin. apply elem_of_cons in Hin as [Hin|Hin]; [discriminate Hin|].
    apply list_elem_of_singleton in Hin. discriminate Hin. }
  assert (Hdef : DOLT_DEFAULT_BRANCH ∈ List.map Models.name [develop_branch; main_branch]).
  { right. left. }
  split_and!; [exact Habs|exact Hdef|].
  exact (proj2 (proj2 (proj2
           (C7_branch_resolution [develop_branch; main_branch] feature_request)))
           Habs Hdef).
Defined.

Lemma C8_from_rows_and_order_witness :
  diff_results db "c1" "c2" [ct_device; ct_site] = Py.Ok [device_package]
  /\ device_package ∈ [device_package]
  /\ List.filter (tagged "from") (table_rows (table device_package)) ≡ₚ [row_9]
  /\ List.filter (fun r => negb (tagged "from" r)) (table_rows (table device_package))
     ≡ₚ [row_7; row_3]
  /\ Sorted (fun a b => row_pk a <= row_pk b) (table_rows (table device_package)).
Proof.
  assert (Hres : diff_results db "c1" "c2" [ct_device; ct_site]
                 = Py.Ok [device_package]) by reflexivity.
  assert (Hin : device_package ∈ [device_package]) by left.
  split_and!; [exact Hres|exact Hin|..];
    destruct (C8_from_rows_and_order db "c1" "c2" [ct_device; ct_site]
                [device_package] device_package Hres Hin)
      as (model & _ & Hm & Hfrom & Hto & Hsorted);
    injection Hm as <-; [exact Hfrom|exact Hto|exact Hsorted].
Defined.

Lemma C9_no_package_without_diff_rows_witness :
  ct_model_class ct_site = Some site
  /\ diffs db site "c1" "c2" = []
  /\ diff_package db "c1" "c2" ct_site = Py.Ok None
  /\ (forall cts pkgs pkg,
        diff_results db "c1" "c2" cts = Py.Ok pkgs ->
        pkg ∈ pkgs -> table_content_type (table pkg) <> ct_site)
  /\ (forall pkgs pkg,
        two_dot_diffs db (Some "c1") (Some "c2") = Py.Ok pkgs ->
        pkg ∈ pkgs -> table_content_type (table pkg) <> ct_site).
Proof.
  assert (Hm : ct_model_class ct_site = Some site) by reflexivity.
  assert (Hd : diffs db site "c1" "c2" = []) by reflexivity.
  split_and!; [exact Hm|exact Hd|..];
    apply (C9_no_package_without_diff_rows db "c1" "c2" ct_site site Hm Hd).
Defined.

End ConcreteRuns.

(** * Further properties *)

Import RequestMiddleware ThreeDot MoreSpec.

(** ** The routing policy, beyond rejected writes *)

Section MoreRouterFacts.
Context `{!Constants, !Utils}.

(** X1: a write is rejected in one situation only: the router is enabled,
    the model is neither a Dolt model nor versioned, and the active branch
    is not the primary branch; the exception is then the DoltError with the
    formatted message. *)
Theorem db_for_write_raises_iff rt model e :
  db_for_write rt model = Py.Raise e
  <-> global_router_enabled rt = true
      /\ is_dolt_model model = false
      /\ is_versioned_model model = false
      /\ active_branch rt <> DOLT_DEFAULT_BRANCH
      /\ e = Py.DoltError (write_error rt model).
Proof.
  unfold db_for_write, branch_is_not_primary.
  destruct (global_router_enabled rt), (is_dolt_model model),
    (is_versioned_model model); simpl;
    try (split; [discriminate|intros (?&?&?&?&?); discriminate]).
  destruct (String.eqb_spec (active_branch rt) DOLT_DEFAULT_BRANCH) as [Heq|Hne]; simpl.
  - split; [discriminate|]. intros (_&_&_&Hne&_). by destruct Hne.
  - split; [intros [= <-]; by split_and!|]. intros (_&_&_&_&->). done.
Qed.

(** X2: where a write is routed does not depend on the active branch: two
    runtimes with the same switch that both accept the write give it the
    same route. *)
Theorem db_for_write_route_ignores_branch rt1 rt2 model d1 d2 :
  global_router_enabled rt1 = global_router_enabled rt2 ->
  db_for_write rt1 model = Py.Ok d1 ->
  db_for_write rt2 model = Py.Ok d2 ->
  d1 = d2.
Proof.
  unfold db_for_write. intros <-.
  destruct (global_router_enabled rt1), (is_dolt_model model),
    (is_versioned_model model), (branch_is_not_primary rt1),
    (branch_is_not_primary rt2); simpl; congruence.
Qed.

(** X3: an accepted write of a model that is not a Dolt model goes where the
    reads of that model go. *)
Theorem write_follows_read rt model d :
  is_dolt_model model = false ->
  db_for_write rt model = Py.Ok d ->
  d = db_for_read rt model.
Proof.
  unfold db_for_write, db_for_read. intros ->.
  destruct (global_router_enabled rt), (is_versioned_model model),
    (branch_is_not_primary rt); simpl; congruence.
Qed.

End MoreRouterFacts.

(** ** The auto-commit context manager, beyond the commit it issues *)

Section MoreMiddlewareFacts.
Context `{!Constants, !Utils, !Models.Engine}.

Lemma observe_branch self ev :
  branch (observe self ev)
  = if forces_primary ev then DOLT_DEFAULT_BRANCH else branch self.
Proof.
  destruct ev as [instance created|instance action pk_set|instance];
    unfold observe, _handle_update, _handle_delete, forces_primary.
  - rewrite kwargs_post_save_created. simpl.
    by destruct (is_dolt_model _), (bool_decide (_ = ObjectChange)).
  - rewrite kwargs_m2m_created, kwargs_m2m_action, kwargs_m2m_pk_set. simpl.
    destruct (is_dolt_model _), (bool_decide (_ = ObjectChange)), (_ || _);
      simpl; try done;
      destruct pk_set as [s|]; simpl; try done;
      by destruct (bool_decide (s = ∅)).
  - done.
Qed.

Lemma observed_branch events : forall self,
  branch (foldl observe self events)
  = if existsb forces_primary events then DOLT_DEFAULT_BRANCH else branch self.
Proof.
  induction events as [|ev events IH]; intros self; simpl; [done|].
  rewrite IH, observe_branch.
  by destruct (forces_primary ev), (existsb forces_primary events).
Qed.

(** X4: the branch the context manager would commit to is the branch of the
    request, unless a post-write or many-to-many event on a Dolt model was
    observed: from then on it is the primary branch, whatever comes
    after. *)
Theorem target_branch_after_unit_of_work self_id request events exc w :
  branch (snd (__call__ self_id request events exc w))
  = if existsb forces_primary events then DOLT_DEFAULT_BRANCH
    else branch_from_request request.
Proof. unfold __call__. simpl. by rewrite observed_branch. Qed.

(** X5: within a unit of work the dirty flag is never cleared and recorded
    descriptions are never dropped or reordered: the flag after more events
    is at least the flag before, and the descriptions before are a prefix of
    the descriptions after. *)
Theorem dirty_flag_and_changes_only_grow self events :
  implb (commit self) (commit (foldl observe self events)) = true
  /\ changes self `prefix_of` changes (foldl observe self events).
Proof.
  split.
  - rewrite observed_commit. by destruct (commit self).
  - rewrite observed_changes. by apply prefix_app_r.
Qed.

Lemma undescribed_descriptions ev :
  undescribed ev = true -> descriptions ev = [].
Proof.
  destruct ev as [instance created|instance action pk_set|instance];
    unfold undescribed, descriptions; try done;
    by destruct (is_dolt_model _), (bool_decide (_ = ObjectChange)).
Qed.

Lemma undescribed_all events :
  forallb undescribed events = true -> List.flat_map descriptions events = [].
Proof.
  induction events as [|ev events IH]; simpl; [done|].
  intros [Hev Hrest]%andb_true_iff.
  by rewrite (undescribed_descriptions _ Hev), IH.
Qed.

(** X6: a unit of work that only deletes objects, or only touches instances
    that are neither Dolt models nor ObjectChange records, is committed
    under the fixed message: deletions and ordinary objects leave no trace
    in the commit message. *)
Theorem undescribed_work_gets_fixed_message self_id request events exc w :
  is_health_check request = false ->
  forallb undescribed events = true ->
  existsb marks_dirty events = true ->
  engine (fst (__call__ self_id request events exc w))
  = engine w ++
    [{| Models.flags := ["--all"; "--force"; "--allow-empty"];
        Models.message := "auto dolt commit";
        Models.author := "nautobot <nautobot@ntc.com>" |}].
Proof.
  intros Hh Hu Hd.
  rewrite call_engine_dirty by (try done; by rewrite undescribed_all).
  by rewrite undescribed_all.
Qed.

(** X7: neither notification Django sends to the update handler makes it
    raise. *)
Theorem handle_update_accepts_notifications self instance :
  (forall created,
     snd (_handle_update self instance (kwargs_of (PostSave instance created))) = None)
  /\ (forall action pk_set,
        snd (_handle_update self instance
               (kwargs_of (M2MChanged instance action pk_set))) = None).
Proof.
  split; intros; apply handle_update_no_raise; [left|right]; eauto.
Qed.

(** X8: when the update handler is called with an add or remove action but
    without a [pk_set] (and without [created]), it raises KeyError; by then
    it has already recorded the descriptions and moved the target branch,
    and it has not touched the dirty flag. *)
Theorem handle_update_missing_pk_set self instance kwargs action :
  kwargs !! "created" = None ->
  kwargs !! "action" = Some (Py.VStr action) ->
  added_or_removed action = true ->
  kwargs !! "pk_set" = None ->
  snd (_handle_update self instance kwargs) = Some (Py.KeyError "pk_set")
  /\ commit (fst (_handle_update self instance kwargs)) = commit self
  /\ changes (fst (_handle_update self instance kwargs))
     = changes self
       ++ (if is_dolt_model (type_of instance)
           then ["Updated " +:+ verbose_name (type_of instance) +:+ " "
                   +:+ Py.dquote +:+ str instance +:+ Py.dquote +:+ " "]
           else [])
       ++ (if bool_decide (type_of instance = ObjectChange)
           then [str instance] else [])
  /\ branch (fst (_handle_update self instance kwargs))
     = if is_dolt_model (type_of instance) then DOLT_DEFAULT_BRANCH else branch self.
Proof.
  intros Hc Ha Hadd Hpk. unfold _handle_update, change_msg_for_dolt_obj.
  unfold added_or_removed in Hadd. rewrite Hc, Ha, Hadd, Hpk. simpl.
  destruct (is_dolt_model _), (bool_decide (_ = ObjectChange)); simpl;
    split_and!; try done; by rewrite <- ?app_assoc, ?app_nil_r.
Qed.

(** *** Subscriptions as a round trip *)

Lemma disconnect_connect receiver uid sig :
  connected uid sig = false -> disconnect uid (connect receiver uid sig) = sig.
Proof.
  intros Hc. unfold connect. rewrite Hc. revert Hc.
  induction sig as [|kr sig IH]; simpl.
  - intros _. by rewrite String.eqb_refl.
  - unfold connected. simpl. intros [Hk Hrest]%orb_false_iff.
    rewrite Hk. f_equal. by apply IH.
Qed.

Lemma connect_connect r1 r2 uid sig :
  connect r2 uid (connect r1 uid sig) = connect r1 uid sig.
Proof. unfold connect at 1. by rewrite connected_connect. Qed.

Lemma exit_after_enter self_id self exc w :
  is_health_check (request self) = false ->
  unsubscribed (signals w) = true ->
  exit_raises self w = None ->
  signals (__exit__ self exc
             {| signals := __enter__ self_id (signals w); engine := engine w |})
  = signals w.
Proof.
  intros Hh Hu Hr. unfold unsubscribed in Hu.
  apply andb_true_iff in Hu as [[Hs1 Hs2]%andb_true_iff Hs3].
  apply negb_true_iff in Hs1, Hs2, Hs3.
  rewrite exit_signals; [|done|by rewrite (exit_raises_engine self w)].
  unfold __enter__. simpl.
  rewrite !disconnect_connect by done. by destruct (signals w).
Qed.

(** X9: outside a health check, entering the scope and leaving it by an
    exit that does not raise is a round trip on a registry that held none
    of the three subscriptions: the exit gives back exactly the registry the
    entry found, whether or not the block raised. *)
Theorem enter_exit_round_trip self_id self exc w :
  is_health_check (request self) = false ->
  unsubscribed (signals w) = true ->
  exit_raises self w = None ->
  signals (__exit__ self exc
             {| signals := __enter__ self_id (signals w); engine := engine w |})
  = signals w.
Proof. apply exit_after_enter. Qed.

(** X10: the three subscriptions are keyed by fixed names, so a scope entered
    inside another registers nothing of its own, and its exit, when it does
    not raise, removes the subscriptions of the outer scope: after the inner
    exit the outer scope observes nothing any more. *)
Theorem nested_scope_unsubscribes_outer outer_id inner_id inner exc w :
  is_health_check (request inner) = false ->
  unsubscribed (signals w) = true ->
  exit_raises inner w = None ->
  __enter__ inner_id (__enter__ outer_id (signals w)) = __enter__ outer_id (signals w)
  /\ signals (__exit__ inner exc
                {| signals := __enter__ inner_id (__enter__ outer_id (signals w));
                   engine := engine w |})
     = signals w.
Proof.
  intros Hh Hu Hr.
  assert (Hnest : __enter__ inner_id (__enter__ outer_id (signals w))
                  = __enter__ outer_id (signals w)).
  { unfold __enter__. simpl. by rewrite !connect_connect. }
  split; [done|]. rewrite Hnest. by apply exit_after_enter.
Qed.

(** X28: when the engine refuses the commit of a dirty scope, the exit
    raises the engine's exception, no commit is made, and the three
    receivers registered on entry stay registered: the exception leaves the
    exit before the disconnect calls. *)
Theorem refused_commit_keeps_subscriptions self_id self exc w e :
  is_health_check (request self) = false ->
  commit self = true ->
  _commit self (engine w) = Py.Raise e ->
  let entered := {| signals := __enter__ self_id (signals w); engine := engine w |} in
  exit_raises self entered = Some e
  /\ __exit__ self exc entered = entered
  /\ subscribed (signals (__exit__ self exc entered)) = true.
Proof.
  intros Hh Hc He entered.
  assert (Hr : exit_raises self entered = Some e).
  { unfold exit_raises. simpl. by rewrite Hh, Hc, He. }
  split_and!; [done|by apply exit_raised with e|].
  rewrite (exit_raised _ _ _ _ Hr). apply enter_subscribes.
Qed.

End MoreMiddlewareFacts.

(** ** Branch resolution and the branch middleware *)

Section MoreBranchFacts.
Context `{!Constants, !Utils, !Models.Engine}.

Lemma get_branch_present dolt_branches request :
  branch_from_request request ∈ List.map Models.name dolt_branches ->
  exists b,
    get_branch dolt_branches request = (request, Py.Ok b)
    /\ Models.name b = branch_from_request request
    /\ b ∈ dolt_branches.
Proof.
  intros Hin. apply get_present in Hin as (b & Hget & Hname & Hb).
  exists b. unfold get_branch. by rewrite Hget.
Qed.

(** X11: a requested branch that is in the branch table is returned as it
    is: no warning is queued, the session is not touched. *)
Theorem get_branch_found dolt_branches request :
  branch_from_request request ∈ List.map Models.name dolt_branches ->
  exists b,
    get_branch dolt_branches request = (request, Py.Ok b)
    /\ Models.name b = branch_from_request request
    /\ b ∈ dolt_branches.
Proof. apply get_branch_present. Qed.

Lemma get_branch_raises dolt_branches request e :
  snd (get_branch dolt_branches request) = Py.Raise e
  <-> e = Py.ObjectDoesNotExist
      /\ (branch_from_request request ∉ List.map Models.name dolt_branches)
      /\ (DOLT_DEFAULT_BRANCH ∉ List.map Models.name dolt_branches).
Proof.
  destruct (decide (branch_from_request request ∈ List.map Models.name dolt_branches))
    as [Hin|Hnin].
  - destruct (get_branch_present _ _ Hin) as (b & -> & _). simpl.
    split; [discriminate|]. by intros (_ & Hn & _).
  - unfold get_branch. rewrite (get_absent _ _ Hnin). simpl.
    destruct (decide (DOLT_DEFAULT_BRANCH ∈ List.map Models.name dolt_branches))
      as [Hd|Hd].
    + destruct (get_present _ _ Hd) as (b & -> & _).
      split; [discriminate|]. by intros (_ & _ & Hn).
    + rewrite (get_absent _ _ Hd). split; [by intros [= <-]|by intros (-> & _)].
Qed.

(** X12: the resolution raises in one situation only: neither the requested
    branch nor the primary branch is in the branch table; the exception is
    the lookup error of the second lookup. *)
Theorem get_branch_raises_iff dolt_branches request e :
  snd (get_branch dolt_branches request) = Py.Raise e
  <-> e = Py.ObjectDoesNotExist
      /\ (branch_from_request request ∉ List.map Models.name dolt_branches)
      /\ (DOLT_DEFAULT_BRANCH ∉ List.map Models.name dolt_branches).
Proof. apply get_branch_raises. Qed.

(** X13: with the primary branch in the branch table, resolving the request
    that a resolution left behind changes nothing: it returns the same
    branch and queues no second warning, because the fallback pinned the
    session to the primary branch. *)
Theorem get_branch_settles dolt_branches request :
  DOLT_DEFAULT_BRANCH ∈ List.map Models.name dolt_branches ->
  get_branch dolt_branches (fst (get_branch dolt_branches request))
  = get_branch dolt_branches request.
Proof.
  intros Hd.
  destruct (decide (branch_from_request request ∈ List.map Models.name dolt_branches))
    as [Hin|Hnin].
  - destruct (get_branch_present _ _ Hin) as (b & Hget & _).
    rewrite Hget. simpl. exact Hget.
  - destruct (get_present _ _ Hd) as (b & Hb & _).
    assert (Hfirst : get_branch dolt_branches request
              = ({| path := path request;
                    session := <[DOLT_BRANCH_KEYWORD := DOLT_DEFAULT_BRANCH]> (session request);
                    headers := headers request;
                    messages :=
                      messages request
                      ++ [(warning,
                           "<div class=" +:+ Py.dquote +:+ "text-center" +:+ Py.dquote
                           +:+ ">branch not found: " +:+ branch_from_request request
                           +:+ "</div>")] |},
                 Py.Ok b)).
    { unfold get_branch. by rewrite (get_absent _ _ Hnin), Hb. }
    rewrite Hfirst. simpl. unfold get_branch at 1.
    unfold branch_from_request at 1. simpl. rewrite lookup_insert_eq.
    by rewrite Hb.
Qed.

Lemma get_branch_raise_class dolt_branches request e :
  snd (get_branch dolt_branches request) = Py.Raise e -> e = Py.ObjectDoesNotExist.
Proof. intros Hr. by apply get_branch_raises in Hr as [-> _]. Qed.

(** X14: the branch middleware never lets a DoltError out: the lookup of the
    branch cannot raise one, a failing checkout is caught, and a DoltError
    of the view is turned into a response. *)
Theorem process_view_never_raises_DoltError
    dolt_branches checkout is_authenticated view_func request active msg :
  snd (process_view dolt_branches checkout is_authenticated view_func request active)
  <> Py.Raise (Py.DoltError msg).
Proof.
  unfold process_view.
  destruct (get_branch dolt_branches request) as [request1 [b|e]] eqn:Hg; simpl.
  - destruct (checkout b active) as [active'|e]; simpl;
      match goal with
      | |- context [view_func ?r ?a] =>
          destruct (view_func r a) as [[request2 active2] [resp|[]]]
      end; simpl; discriminate.
  - assert (He : e = Py.ObjectDoesNotExist).
    { apply (get_branch_raise_class dolt_branches request). by rewrite Hg. }
    subst e. discriminate.
Qed.

(** X15: a view that fails with a DoltError, as a rejected write does, is
    answered by a redirect to the path of the request, and the message of
    the error is the last message queued for the user. *)
Theorem process_view_redirects_on_DoltError
    dolt_branches checkout is_authenticated view_func request active b msg :
  snd (get_branch dolt_branches request) = Py.Ok b ->
  (forall req act, snd (view_func req act) = Py.Raise (Py.DoltError msg)) ->
  let result :=
    process_view dolt_branches checkout is_authenticated view_func request active in
  snd result = Py.Ok (HttpResponseRedirect (path (fst (fst result))))
  /\ last (messages (fst (fst result))) = Some (error, msg).
Proof.
  intros Hb Hview. unfold process_view.
  destruct (get_branch dolt_branches request) as [request1 r]. simpl in Hb. subst r.
  destruct (checkout b active) as [active'|e]; simpl;
    match goal with
    | |- context [view_func ?r ?a] =>
        pose proof (Hview r a) as Hv;
        destruct (view_func r a) as [[request2 active2] out]
    end; simpl in Hv; subst out; simpl; by rewrite last_snoc.
Qed.

(** X16: a checkout the engine refuses does not stop the request: the view
    still answers, on the branch that was active before, and the user is
    told which branch could not be checked out and why. *)
Theorem checkout_failure_is_reported
    dolt_branches checkout is_authenticated request active b e resp :
  snd (get_branch dolt_branches request) = Py.Ok b ->
  checkout b active = Py.Raise e ->
  let result :=
    process_view dolt_branches checkout is_authenticated
      (fun req act => (req, act, Py.Ok resp)) request active in
  snd result = Py.Ok resp
  /\ snd (fst result) = active
  /\ (error, "could not checkout branch " +:+ Models.name b +:+ ": " +:+ exn_str e)
     ∈ messages (fst (fst result)).
Proof.
  intros Hb Hc. unfold process_view.
  destruct (get_branch dolt_branches request) as [request1 r]. simpl in Hb. subst r.
  rewrite Hc. simpl. split_and!; try done.
  destruct is_authenticated; simpl; rewrite !elem_of_app;
    [left|]; right; constructor.
Qed.

(** X17: behind the health-check intercept, the auto-commit middleware leaves
    the signal registry as it found it for every request whose commit
    message holds no single quote and no backslash: a health check never
    reaches it, and for any other request its exit undoes its entry. *)
Theorem intercepted_stack_restores_registry self_id events outcome request w :
  unsubscribed (signals w) = true ->
  Py.plain (synthesized_message (List.flat_map descriptions events)) = true ->
  signals (fst (dolt_health_check_intercept_middleware
                  (auto_commit_handler self_id events outcome) request w))
  = signals w
  /\ (is_health_check request = true ->
      dolt_health_check_intercept_middleware
        (auto_commit_handler self_id events outcome) request w
      = (w, Py.Ok (HttpResponse 201 "")))
  /\ (is_health_check request = false ->
      snd (dolt_health_check_intercept_middleware
             (auto_commit_handler self_id events outcome) request w)
      = outcome).
Proof.
  intros Hu Hp. unfold dolt_health_check_intercept_middleware.
  destruct (is_health_check request) eqn:Hh; [by split_and!|].
  assert (Hr : forall w0,
             exit_raises
               (foldl observe (__init__ request (branch_from_request request)) events)
               w0 = None).
  { intros w0. apply exit_raises_plain. by rewrite observed_message. }
  split_and!; [|discriminate|].
  - unfold auto_commit_handler, __call__. simpl.
    apply exit_after_enter; [by rewrite observed_request|done|apply Hr].
  - intros _. unfold auto_commit_handler, call_raises. simpl.
    rewrite Hr. by destruct outcome.
Qed.

End MoreBranchFacts.

(** ** The diff engine, beyond one entity type *)

Section MoreDiffFacts.
Context `{!Constants, !Utils, !DiffFactory, !Models.Engine, !CommitModel}.

Lemma selects_nil_iff from_c to_c (cts : list ContentType) :
  diff_count_selects from_c to_c cts = [] <-> existsb candidate cts = false.
Proof.
  unfold diff_count_selects.
  induction cts as [|ct cts IH]; simpl; [done|].
  unfold candidate at 1.
  destruct (ct_model_class ct) as [model|]; simpl; [|exact IH].
  destruct (diff_table_for_model model) as [t|]; simpl; [|exact IH].
  split; discriminate.
Qed.

Lemma selects_well_spliced from_c to_c (cts : list ContentType) :
  Py.plain from_c = true -> Py.plain to_c = true ->
  forallb plainly_named cts = true ->
  forallb well_spliced (diff_count_selects from_c to_c cts) = true.
Proof.
  intros Hf Ht. unfold diff_count_selects.
  induction cts as [|ct cts IH]; simpl; [done|].
  intros [Hct Hrest]%andb_true_iff. specialize (IH Hrest).
  unfold plainly_named, candidate in Hct.
  destruct (ct_model_class ct) as [model|]; simpl; [|exact IH].
  destruct (diff_table_for_model model) as [t|]; simpl; [|exact IH].
  rewrite IH, andb_true_r. unfold well_spliced. simpl.
  simpl in Hct. by rewrite Hct, Hf, Ht.
Qed.

(** After the statement has been executed the result no longer depends
    on its rows: the second set comprehension finds the iterator
    exhausted. *)
Lemma enumeration_unfold db from_c to_c :
  content_types_with_diffs db from_c to_c
  = match execute_union db (diff_count_selects from_c to_c (content_types db)) with
    | Py.Ok _ => Py.Ok []
    | Py.Raise e => Py.Raise e
    end.
Proof.
  unfold content_types_with_diffs, diff_count_selects.
  destruct (execute_union _ _) as [res|e]; simpl; [|done].
  f_equal. apply filter_none. intros ct _.
  rewrite (bool_decide_eq_false_2 (ct_model ct ∈ (∅ : gset string)))
    by apply not_elem_of_empty.
  apply andb_false_r.
Qed.

Lemma enumeration_outcomes db from_c to_c :
  (forall cts, content_types_with_diffs db from_c to_c = Py.Ok cts -> cts = [])
  /\ (existsb candidate (content_types db) = false ->
      content_types_with_diffs db from_c to_c = Py.Raise (Py.ProgrammingError "()"))
  /\ (existsb candidate (content_types db) = true ->
      spliced_plainly db from_c to_c = true ->
      content_types_with_diffs db from_c to_c = Py.Ok []).
Proof.
  split_and!.
  - apply content_types_with_diffs_empty.
  - intros Hc. rewrite enumeration_unfold.
    apply (selects_nil_iff from_c to_c) in Hc. by rewrite Hc.
  - intros Hc Hs. rewrite enumeration_unfold. unfold spliced_plainly in Hs.
    apply andb_true_iff in Hs as [[Hf Ht]%andb_true_iff Hn].
    pose proof (selects_well_spliced _ _ _ Hf Ht Hn) as Hw.
    destruct (diff_count_selects from_c to_c (content_types db)) as [|q sel] eqn:Hsel.
    + apply selects_nil_iff in Hsel. congruence.
    + unfold execute_union. by rewrite Hw.
Qed.

(** X18: the enumeration step never returns a content type, whatever the
    diff tables hold. When no content type has both a model class and a
    registered diff table, the union has no select and the engine rejects
    the statement; when there is one and every spliced value (the two commit
    ids, the labels and names of the candidates) leaves the statement as
    written, the step returns the empty list. *)
Theorem content_types_with_diffs_outcomes db from_c to_c :
  (forall cts, content_types_with_diffs db from_c to_c = Py.Ok cts -> cts = [])
  /\ (existsb candidate (content_types db) = false ->
      content_types_with_diffs db from_c to_c = Py.Raise (Py.ProgrammingError "()"))
  /\ (existsb candidate (content_types db) = true ->
      spliced_plainly db from_c to_c = true ->
      content_types_with_diffs db from_c to_c = Py.Ok []).
Proof. apply enumeration_outcomes. Qed.

Lemma two_dot_outcomes db from_commit to_commit :
  (forall pkgs, two_dot_diffs db from_commit to_commit = Py.Ok pkgs -> pkgs = [])
  /\ (commit_given from_commit && commit_given to_commit = false ->
      two_dot_diffs db from_commit to_commit
      = Py.Raise (Py.ValueError "must specify both a to_commit and from_commit"))
  /\ (commit_given from_commit && commit_given to_commit = true ->
      existsb candidate (content_types db) = false ->
      two_dot_diffs db from_commit to_commit = Py.Raise (Py.ProgrammingError "()"))
  /\ (commit_given from_commit && commit_given to_commit = true ->
      existsb candidate (content_types db) = true ->
      spliced_plainly db (default "" from_commit) (default "" to_commit) = true ->
      two_dot_diffs db from_commit to_commit = Py.Ok []).
Proof.
  unfold two_dot_diffs.
  destruct (enumeration_outcomes db (default "" from_commit) (default "" to_commit))
    as (Hempty & Hnone & Hsome).
  destruct (commit_given from_commit && commit_given to_commit); simpl.
  - split_and!; try done.
    + intros pkgs.
      destruct (content_types_with_diffs _ _ _) as [cts|e] eqn:E; simpl; [|done].
      rewrite (Hempty _ eq_refl). simpl. by intros [= <-].
    + intros _ Hc. by rewrite (Hnone Hc).
    + intros _ Hc Hs. by rewrite (Hsome Hc Hs).
  - by split_and!.
Qed.

(** X19: two_dot_diffs never returns a package. It raises ValueError when
    a commit is missing or empty, and the engine's error when nothing is
    registered for diffing; when something is registered and every spliced
    value leaves the statement as written, it returns the empty list. *)
Theorem two_dot_diffs_outcomes db from_commit to_commit :
  (forall pkgs, two_dot_diffs db from_commit to_commit = Py.Ok pkgs -> pkgs = [])
  /\ (commit_given from_commit && commit_given to_commit = false ->
      two_dot_diffs db from_commit to_commit
      = Py.Raise (Py.ValueError "must specify both a to_commit and from_commit"))
  /\ (commit_given from_commit && commit_given to_commit = true ->
      existsb candidate (content_types db) = false ->
      two_dot_diffs db from_commit to_commit = Py.Raise (Py.ProgrammingError "()"))
  /\ (commit_given from_commit && commit_given to_commit = true ->
      existsb candidate (content_types db) = true ->
      spliced_plainly db (default "" from_commit) (default "" to_commit) = true ->
      two_dot_diffs db from_commit to_commit = Py.Ok []).
Proof. apply two_dot_outcomes. Qed.

(** X20: three_dot_diffs never returns a package. It checks its two
    commits before it asks for the merge base, and raises ValueError when
    one is missing; it raises the same error when the merge base comes back
    empty; otherwise it is two_dot_diffs from the merge base. *)
Theorem three_dot_diffs_outcomes db from_commit to_commit :
  (forall pkgs, three_dot_diffs db from_commit to_commit = Py.Ok pkgs -> pkgs = [])
  /\ (commit_given from_commit && commit_given to_commit = false ->
      three_dot_diffs db from_commit to_commit
      = Py.Raise (Py.ValueError "must specify both a to_commit and from_commit"))
  /\ (commit_given from_commit && commit_given to_commit = true ->
      three_dot_diffs db from_commit to_commit
      = two_dot_diffs db
          (merge_base (default "" from_commit) (default "" to_commit)) to_commit)
  /\ (commit_given from_commit && commit_given to_commit = true ->
      commit_given (merge_base (default "" from_commit) (default "" to_commit)) = false ->
      three_dot_diffs db from_commit to_commit
      = Py.Raise (Py.ValueError "must specify both a to_commit and from_commit")).
Proof.
  unfold three_dot_diffs.
  destruct (commit_given from_commit && commit_given to_commit); simpl.
  - split_and!; try done.
    + apply two_dot_outcomes.
    + intros _ Hb. apply two_dot_outcomes. by rewrite Hb.
  - by split_and!.
Qed.

(** X21: the keys of the annotation are the root tag and the field names of
    the diff model that hold no double underscore, and nothing else: no key
    can be read as a lookup across a relation. *)
Theorem annotation_keys root model d key :
  key ∈ List.map fst (JSONObject root model d)
  <-> key = "root"
      \/ (key ∈ diff_model_fields model /\ Py.contains "__" key = false).
Proof.
  unfold JSONObject, diff_annotation_query_fields. simpl.
  rewrite elem_of_cons, List.map_map. simpl. rewrite List.map_id.
  rewrite list_elem_of_In, List.filter_In, <- list_elem_of_In, negb_true_iff.
  done.
Qed.

Lemma diff_package_inv_full db from_c to_c ct pkg :
  diff_package db from_c to_c ct = Py.Ok (Some pkg) ->
  exists model,
    ct_model_class ct = Some model
    /\ pkg = {| name := source_model_verbose_name ct +:+ " Diffs";
                table :=
                  {| table_content_type := ct;
                     table_rows :=
                       Py.sorted row_pk (to_queryset db model from_c to_c
                                         ++ from_queryset db model from_c to_c) |};
                added := count_type "added" (diffs db model from_c to_c);
                modified := count_type "modified" (diffs db model from_c to_c);
                removed := count_type "removed" (diffs db model from_c to_c) |}.
Proof.
  unfold diff_package. destruct (ct_model_class ct) as [model|]; [|done].
  fold row_pk.
  destruct (Py.sorted _ _) as [|r rows] eqn:E; [done|].
  intros [= <-]. exists model. by rewrite E.
Qed.

(** X22: the loop keeps the order of the content types it is given and emits
    at most one package for each: the content types of the packages are a
    sublist of the content types given. *)
Theorem diff_results_keep_order db from_c to_c cts : forall pkgs,
  diff_results db from_c to_c cts = Py.Ok pkgs ->
  List.map (fun pkg => table_content_type (table pkg)) pkgs `sublist_of` cts.
Proof.
  induction cts as [|ct cts IH]; intros pkgs; simpl.
  - intros [= <-]. constructor.
  - destruct (diff_package db from_c to_c ct) as [p|e] eqn:Ep; simpl; [|done].
    destruct (diff_results db from_c to_c cts) as [rest|e] eqn:Er; simpl; [|done].
    intros [= <-]. destruct p as [pkg|].
    + destruct (diff_package_inv _ _ _ _ _ Ep) as (model & _ & Ht & _).
      simpl. rewrite Ht. simpl. apply sublist_skip. by apply IH.
    + apply sublist_cons. by apply IH.
Qed.

Lemma count_types_le (ds : list DiffRecord) :
  (count_type "added" ds + count_type "modified" ds + count_type "removed" ds
   <= length ds)%nat
  /\ (forallb known_diff_type ds = true ->
      (count_type "added" ds + count_type "modified" ds + count_type "removed" ds
       = length ds)%nat).
Proof.
  unfold count_type, known_diff_type.
  induction ds as [|d ds [IHle IHeq]]; simpl; [done|].
  destruct (String.eqb_spec (diff_type d) "added") as [Ha|Ha];
    destruct (String.eqb_spec (diff_type d) "modified") as [Hm|Hm];
    destruct (String.eqb_spec (diff_type d) "removed") as [Hr|Hr];
    try congruence; simpl; (split; [lia|]); try done; intros Hk;
    specialize (IHeq Hk); lia.
Qed.

(** X23: the three counts of a package never exceed the number of diff rows
    of its entity type for the two commits, and add up to it when every
    diff row is of type added, modified or removed. *)
Theorem package_counts db from_c to_c ct model pkg :
  ct_model_class ct = Some model ->
  diff_package db from_c to_c ct = Py.Ok (Some pkg) ->
  (added pkg + modified pkg + removed pkg
   <= length (diffs db model from_c to_c))%nat
  /\ (forallb known_diff_type (diffs db model from_c to_c) = true ->
      (added pkg + modified pkg + removed pkg
       = length (diffs db model from_c to_c))%nat).
Proof.
  intros Hm Hp.
  destruct (diff_package_inv_full _ _ _ _ _ Hp) as (model' & Hm' & ->).
  assert (model' = model) as -> by congruence. simpl.
  apply count_types_le.
Qed.

(** X24: every row of a package answers to a diff row of its entity type for
    the two commits: its primary key is the to_id of a diff row, or the
    from_id of a diff row of type removed. *)
Theorem package_rows_come_from_diffs db from_c to_c ct model pkg r :
  ct_model_class ct = Some model ->
  diff_package db from_c to_c ct = Py.Ok (Some pkg) ->
  r ∈ table_rows (table pkg) ->
  exists d,
    d ∈ diffs db model from_c to_c
    /\ (to_id d = Some (row_pk r)
        \/ (from_id d = Some (row_pk r) /\ diff_type d = "removed")).
Proof.
  intros Hm Hp Hr.
  destruct (diff_package_inv_full _ _ _ _ _ Hp) as (model' & Hm' & ->).
  assert (model' = model) as -> by congruence. simpl in Hr.
  rewrite (sorted_perm row_pk) in Hr. apply elem_of_app in Hr as [Hr|Hr].
  - unfold to_queryset in Hr. rewrite list_elem_of_In, in_map_iff in Hr.
    destruct Hr as (m & <- & Hin). apply filter_In in Hin as [_ Hin].
    unfold pk_in in Hin. apply bool_decide_eq_true in Hin.
    rewrite list_elem_of_In, in_map_iff in Hin. destruct Hin as (d & Hd & Hin).
    exists d. rewrite list_elem_of_In. split; [done|]. by left.
  - unfold from_queryset in Hr. rewrite list_elem_of_In, in_map_iff in Hr.
    destruct Hr as (m & <- & Hin). apply filter_In in Hin as [_ Hin].
    unfold pk_in in Hin. apply bool_decide_eq_true in Hin.
    rewrite list_elem_of_In, in_map_iff in Hin. destruct Hin as (d & Hd & Hin).
    apply filter_In in Hin as [Hin Hty]. apply String.eqb_eq in Hty.
    exists d. rewrite list_elem_of_In. split; [done|]. by right.
Qed.

Lemma insert_by_stable {A} (key : A -> Z) (k : Z) (x : A) (l : list A) :
  List.filter (fun y => key y =? k) (Py.insert_by key x l)
  = List.filter (fun y => key y =? k) (x :: l).
Proof.
  induction l as [|y l IH]; simpl; [done|].
  destruct (Z.leb_spec (key x) (key y)) as [Hle|Hgt]; simpl; [done|].
  rewrite IH. simpl.
  destruct (Z.eqb_spec (key x) k), (Z.eqb_spec (key y) k); try done. lia.
Qed.

Lemma sorted_stable {A} (key : A -> Z) (k : Z) (l : list A) :
  List.filter (fun y => key y =? k) (Py.sorted key l)
  = List.filter (fun y => key y =? k) l.
Proof.
  induction l as [|x l IH]; simpl; [done|].
  fold (Py.sorted key l). rewrite insert_by_stable. simpl. by rewrite IH.
Qed.

(** X25: sorting the merged rows keeps rows of equal primary key in the
    order of the merge: among the rows of a package with a given primary
    key, those of the "to" side come first, then those of the "from" side,
    each side in the order its query returned them. *)
Theorem package_rows_stable db from_c to_c ct model pkg k :
  ct_model_class ct = Some model ->
  diff_package db from_c to_c ct = Py.Ok (Some pkg) ->
  List.filter (has_pk k) (table_rows (table pkg))
  = List.filter (has_pk k) (to_queryset db model from_c to_c)
    ++ List.filter (has_pk k) (from_queryset db model from_c to_c).
Proof.
  intros Hm Hp.
  destruct (diff_package_inv_full _ _ _ _ _ Hp) as (model' & Hm' & ->).
  assert (model' = model) as -> by congruence. simpl.
  unfold has_pk. by rewrite (sorted_stable row_pk), List.filter_app.
Qed.

End MoreDiffFacts.

(** ** The statements sent to the engine *)

Section StatementFacts.

Lemma append_assoc (a b c : string) : (a +:+ b) +:+ c = a +:+ (b +:+ c).
Proof.
  induction a as [|ch a IH]; [done|].
  change (String ch ((a +:+ b) +:+ c) = String ch (a +:+ (b +:+ c))).
  by rewrite IH.
Qed.

(** X26: the commit statement splices the message and the author between
    quotes without escaping them, so the statement does not tell where the
    message ends: a message and an author that holds the separator give the
    very statement of a longer message and a shorter author. *)
Theorem dolt_commit_statement_is_ambiguous message x y :
  Statements.dolt_commit message (x +:+ Statements.author_separator +:+ y)
  = Statements.dolt_commit (message +:+ Statements.author_separator +:+ x) y.
Proof.
  unfold Statements.dolt_commit, Statements.author_separator, Models.dolt_commit.
  do 10 f_equal.
  by rewrite !append_assoc.
Qed.

(** X27: a merge executes three statements through the cursor, in this
    order: the checkout of the branch merged into, the merge, and one commit
    under the fixed author; the statement of that commit holds the names of
    both branches. *)
Theorem merge_statements self merge_branch :
  exists commit_statement,
    Statements.merge self merge_branch
    = Statements.checkout_branch self
      ++ ["SELECT dolt_merge('" +:+ merge_branch +:+ "') FROM dual;"; commit_statement]
    /\ Py.contains ("merged " +:+ merge_branch +:+ " into " +:+ Models.name self)
         commit_statement = true
    /\ Py.contains "nautobot <nautobot@ntc.com>" commit_statement = true.
Proof.
  eexists. split_and!; [reflexivity|..];
    unfold Statements.dolt_commit, Models.dolt_commit.
  - do 10 apply contains_app_r. apply contains_prefix, prefix_app.
  - do 12 apply contains_app_r. apply contains_prefix, prefix_app.
Qed.

End StatementFacts.

(** * Further concrete runs *)

Section MoreConcreteRuns.

#[local] Existing Instance Example.sql_engine.
#[local] Existing Instance Example.constants.
#[local] Existing Instance Example.utils.
#[local] Existing Instance Example2.commit_model.
#[local] Existing Instance Example.diff_factory.

Import Example Example2.

Lemma db_for_write_route_ignores_branch_witness :
  let rt1 := {| global_router_enabled := true; active_branch := "main" |} in
  let rt2 := {| global_router_enabled := true; active_branch := "feature" |} in
  global_router_enabled rt1 = global_router_enabled rt2
  /\ db_for_write rt1 branch_model = Py.Ok (Some "global")
  /\ db_for_write rt2 branch_model = Py.Ok (Some "global")
  /\ Some "global" = Some "global".
Proof.
  intros rt1 rt2.
  assert (H1 : global_router_enabled rt1 = global_router_enabled rt2) by reflexivity.
  assert (H2 : db_for_write rt1 branch_model = Py.Ok (Some "global")) by reflexivity.
  assert (H3 : db_for_write rt2 branch_model = Py.Ok (Some "global")) by reflexivity.
  split_and!; [exact H1|exact H2|exact H3|].
  exact (db_for_write_route_ignores_branch rt1 rt2 branch_model _ _ H1 H2 H3).
Defined.

Lemma write_follows_read_witness :
  let rt := {| global_router_enabled := true; active_branch := "main" |} in
  is_dolt_model user_model = false
  /\ db_for_write rt user_model = Py.Ok (Some "global")
  /\ Some "global" = db_for_read rt user_model.
Proof.
  intros rt.
  assert (H1 : is_dolt_model user_model = false) by reflexivity.
  assert (H2 : db_for_write rt user_model = Py.Ok (Some "global")) by reflexivity.
  split_and!; [exact H1|exact H2|].
  exact (write_follows_read rt user_model _ H1 H2).
Defined.

Lemma undescribed_work_gets_fixed_message_witness :
  let events := [PreDelete a_device; PostSave a_device true] in
  is_health_check (plain_request "/dcim/devices/") = false
  /\ forallb undescribed events = true
  /\ existsb marks_dirty events = true
  /\ engine (fst (__call__ 1 (plain_request "/dcim/devices/") events None fresh_world))
     = engine fresh_world ++
       [{| Models.flags := ["--all"; "--force"; "--allow-empty"];
           Models.message := "auto dolt commit";
           Models.author := "nautobot <nautobot@ntc.com>" |}].
Proof.
  intros events.
  assert (H1 : is_health_check (plain_request "/dcim/devices/") = false) by reflexivity.
  assert (H2 : forallb undescribed events = true) by reflexivity.
  assert (H3 : existsb marks_dirty events = true) by reflexivity.
  split_and!; [exact H1|exact H2|exact H3|].
  exact (undescribed_work_gets_fixed_message 1 _ events None fresh_world H1 H2 H3).
Defined.

Lemma handle_update_missing_pk_set_witness :
  let self := __init__ (plain_request "/dolt/branches/") "feature" in
  let kwargs : gmap string Py.value := {[ "action" := Py.VStr "post_add" ]} in
  kwargs !! "created" = None
  /\ kwargs !! "action" = Some (Py.VStr "post_add")
  /\ added_or_removed "post_add" = true
  /\ kwargs !! "pk_set" = None
  /\ snd (_handle_update self a_branch kwargs) = Some (Py.KeyError "pk_set")
  /\ commit (fst (_handle_update self a_branch kwargs)) = false
  /\ branch (fst (_handle_update self a_branch kwargs)) = "main".
Proof.
  intros self kwargs.
  assert (H1 : kwargs !! "created" = None) by reflexivity.
  assert (H2 : kwargs !! "action" = Some (Py.VStr "post_add")) by reflexivity.
  assert (H3 : added_or_removed "post_add" = true) by reflexivity.
  assert (H4 : kwargs !! "pk_set" = None) by reflexivity.
  destruct (handle_update_missing_pk_set self a_branch kwargs "post_add" H1 H2 H3 H4)
    as (Hr & Hc & _ & Hb).
  split_and!; [exact H1|exact H2|exact H3|exact H4|exact Hr|exact Hc|exact Hb].
Defined.

Lemma enter_exit_round_trip_witness :
  let self := observe (__init__ (plain_request "/dcim/devices/") "main")
                (PostSave a_device true) in
  is_health_check (request self) = false
  /\ unsubscribed (signals fresh_world) = true
  /\ exit_raises self fresh_world = None
  /\ signals (__exit__ self (Some (Py.ValueError "boom"))
                {| signals := __enter__ 1 (signals fresh_world);
                   engine := engine fresh_world |})
     = signals fresh_world.
Proof.
  intros self.
  assert (H1 : is_health_check (request self) = false) by reflexivity.
  assert (H2 : unsubscribed (signals fresh_world) = true) by reflexivity.
  assert (H3 : exit_raises self fresh_world = None) by reflexivity.
  split_and!; [exact H1|exact H2|exact H3|].
  exact (enter_exit_round_trip 1 self _ fresh_world H1 H2 H3).
Defined.

Lemma nested_scope_unsubscribes_outer_witness :
  let inner := __init__ (plain_request "/dcim/devices/") "main" in
  is_health_check (request inner) = false
  /\ unsubscribed (signals fresh_world) = true
  /\ exit_raises inner fresh_world = None
  /\ __enter__ 2 (__enter__ 1 (signals fresh_world)) = __enter__ 1 (signals fresh_world)
  /\ signals (__exit__ inner None
                {| signals := __enter__ 2 (__enter__ 1 (signals fresh_world));
                   engine := engine fresh_world |})
     = signals fresh_world.
Proof.
  intros inner.
  assert (H1 : is_health_check (request inner) = false) by reflexivity.
  assert (H2 : unsubscribed (signals fresh_world) = true) by reflexivity.
  assert (H3 : exit_raises inner fresh_world = None) by reflexivity.
  split_and!; [exact H1|exact H2|exact H3|..];
    apply (nested_scope_unsubscribes_outer 1 2 inner None fresh_world H1 H2 H3).
Defined.

Lemma refused_commit_keeps_subscriptions_witness :
  let entered := {| signals := __enter__ 1 (signals fresh_world);
                    engine := engine fresh_world |} in
  is_health_check (request quoted_scope) = false
  /\ commit quoted_scope = true
  /\ _commit quoted_scope (engine fresh_world)
     = Py.Raise (Py.ProgrammingError "syntax error")
  /\ exit_raises quoted_scope entered = Some (Py.ProgrammingError "syntax error")
  /\ __exit__ quoted_scope None entered = entered
  /\ subscribed (signals (__exit__ quoted_scope None entered)) = true.
Proof.
  intros entered.
  assert (H1 : is_health_check (request quoted_scope) = false) by reflexivity.
  assert (H2 : commit quoted_scope = true) by reflexivity.
  assert (H3 : _commit quoted_scope (engine fresh_world)
               = Py.Raise (Py.ProgrammingError "syntax error")) by reflexivity.
  split_and!; [exact H1|exact H2|exact H3|..];
    apply (refused_commit_keeps_subscriptions 1 quoted_scope None fresh_world _ H1 H2 H3).
Defined.

Lemma get_branch_found_witness :
  (branch_from_request develop_request
     ∈ List.map Models.name [develop_branch; main_branch])
  /\ exists b,
       get_branch [develop_branch; main_branch] develop_request
       = (develop_request, Py.Ok b)
       /\ Models.name b = branch_from_request develop_request
       /\ b ∈ [develop_branch; main_branch].
Proof.
  assert (H1 : branch_from_request develop_request
                 ∈ List.map Models.name [develop_branch; main_branch]) by left.
  split; [exact H1|].
  exact (get_branch_found [develop_branch; main_branch] develop_request H1).
Defined.

Lemma get_branch_settles_witness :
  (DOLT_DEFAULT_BRANCH ∈ List.map Models.name [develop_branch; main_branch])
  /\ get_branch [develop_branch; main_branch]
       (fst (get_branch [develop_branch; main_branch] feature_request))
     = get_branch [develop_branch; main_branch] feature_request.
Proof.
  assert (H1 : DOLT_DEFAULT_BRANCH ∈ List.map Models.name [develop_branch; main_branch]).
  { right. left. }
  split; [exact H1|].
  exact (get_branch_settles [develop_branch; main_branch] feature_request H1).
Defined.

Lemma process_view_redirects_on_DoltError_witness :
  snd (get_branch [develop_branch; main_branch] develop_request) = Py.Ok develop_branch
  /\ (forall req act, snd (rejected_view req act) = Py.Raise (Py.DoltError rejected_write))
  /\ let result :=
       process_view [develop_branch; main_branch] checkout_ok true rejected_view
         develop_request "main" in
     snd result = Py.Ok (HttpResponseRedirect (path (fst (fst result))))
     /\ last (messages (fst (fst result))) = Some (error, rejected_write).
Proof.
  assert (H1 : snd (get_branch [develop_branch; main_branch] develop_request)
               = Py.Ok develop_branch) by reflexivity.
  assert (H2 : forall req act,
             snd (rejected_view req act) = Py.Raise (Py.DoltError rejected_write))
    by reflexivity.
  split_and!; [exact H1|exact H2|].
  exact (process_view_redirects_on_DoltError [develop_branch; main_branch]
           checkout_ok true rejected_view develop_request "main"
           develop_branch rejected_write H1 H2).
Defined.

Lemma checkout_failure_is_reported_witness :
  snd (get_branch [develop_branch; main_branch] develop_request) = Py.Ok develop_branch
  /\ checkout_refused develop_branch "main"
     = Py.Raise (Py.ProgrammingError "working set has conflicts")
  /\ let result :=
       process_view [develop_branch; main_branch] checkout_refused false
         (fun req act => (req, act, Py.Ok (HttpResponse 200 "ok")))
         develop_request "main" in
     snd result = Py.Ok (HttpResponse 200 "ok")
     /\ snd (fst result) = "main"
     /\ (error,
         "could not checkout branch " +:+ Models.name develop_branch +:+ ": "
           +:+ exn_str (Py.ProgrammingError "working set has conflicts"))
        ∈ messages (fst (fst result)).
Proof.
  assert (H1 : snd (get_branch [develop_branch; main_branch] develop_request)
               = Py.Ok develop_branch) by reflexivity.
  assert (H2 : checkout_refused develop_branch "main"
               = Py.Raise (Py.ProgrammingError "working set has conflicts"))
    by reflexivity.
  split_and!; [exact H1|exact H2|].
  exact (checkout_failure_is_reported [develop_branch; main_branch]
           checkout_refused false develop_request "main" develop_branch _
           (HttpResponse 200 "ok") H1 H2).
Defined.

Lemma intercepted_stack_restores_registry_witness :
  let outcome := Py.Ok (HttpResponse 200 "ok") in
  let events := [PostSave a_branch true] in
  unsubscribed (signals fresh_world) = true
  /\ Py.plain (synthesized_message (List.flat_map descriptions events)) = true
  /\ signals (fst (dolt_health_check_intercept_middleware
                     (auto_commit_handler 1 events outcome)
                     (plain_request "/dolt/branches/") fresh_world))
     = signals fresh_world.
Proof.
  intros outcome events.
  assert (H1 : unsubscribed (signals fresh_world) = true) by reflexivity.
  assert (H2 : Py.plain (synthesized_message (List.flat_map descriptions events)) = true)
    by reflexivity.
  split_and!; [exact H1|exact H2|].
  exact (proj1 (intercepted_stack_restores_registry 1 events
                  outcome (plain_request "/dolt/branches/") fresh_world H1 H2)).
Defined.

Lemma content_types_with_diffs_outcomes_witness :
  existsb candidate (content_types db) = true
  /\ spliced_plainly db "c1" "c2" = true
  /\ content_types_with_diffs db "c1" "c2" = Py.Ok [].
Proof.
  assert (H1 : existsb candidate (content_types db) = true) by reflexivity.
  assert (H2 : spliced_plainly db "c1" "c2" = true) by reflexivity.
  split_and!; [exact H1|exact H2|].
  exact (proj2 (proj2 (content_types_with_diffs_outcomes db "c1" "c2")) H1 H2).
Defined.

Lemma two_dot_diffs_outcomes_witness :
  commit_given (Some "c1") && commit_given (Some "c2") = true
  /\ existsb candidate (content_types db) = true
  /\ spliced_plainly db (default "" (Some "c1")) (default "" (Some "c2")) = true
  /\ two_dot_diffs db (Some "c1") (Some "c2") = Py.Ok [].
Proof.
  assert (H1 : commit_given (Some "c1") && commit_given (Some "c2") = true)
    by reflexivity.
  assert (H2 : existsb candidate (content_types db) = true) by reflexivity.
  assert (H3 : spliced_plainly db (default "" (Some "c1")) (default "" (Some "c2")) = true)
    by reflexivity.
  split_and!; [exact H1|exact H2|exact H3|].
  exact (proj2 (proj2 (proj2 (two_dot_diffs_outcomes db (Some "c1") (Some "c2"))))
           H1 H2 H3).
Defined.

Lemma three_dot_diffs_outcomes_witness :
  commit_given (Some "c3") && commit_given (Some "c2") = true
  /\ three_dot_diffs db (Some "c3") (Some "c2")
     = two_dot_diffs db (merge_base (default "" (Some "c3")) (default "" (Some "c2")))
         (Some "c2").
Proof.
  assert (H1 : commit_given (Some "c3") && commit_given (Some "c2") = true)
    by reflexivity.
  split; [exact H1|].
  exact (proj1 (proj2 (proj2 (three_dot_diffs_outcomes db (Some "c3") (Some "c2")))) H1).
Defined.

Lemma diff_results_keep_order_witness :
  diff_results db "c1" "c2" [ct_site; ct_device; ct_site] = Py.Ok [device_package]
  /\ List.map (fun pkg => table_content_type (table pkg)) [device_package]
     `sublist_of` [ct_site; ct_device; ct_site].
Proof.
  assert (H1 : diff_results db "c1" "c2" [ct_site; ct_device; ct_site]
               = Py.Ok [device_package]) by reflexivity.
  split; [exact H1|].
  exact (diff_results_keep_order db "c1" "c2" [ct_site; ct_device; ct_site]
           [device_package] H1).
Defined.

Lemma package_counts_witness :
  ct_model_class ct_device = Some device
  /\ diff_package db "c1" "c2" ct_device = Py.Ok (Some device_package)
  /\ forallb known_diff_type (diffs db device "c1" "c2") = true
  /\ (added device_package + modified device_package + removed device_package
      = length (diffs db device "c1" "c2"))%nat.
Proof.
  assert (H1 : ct_model_class ct_device = Some device) by reflexivity.
  assert (H2 : diff_package db "c1" "c2" ct_device = Py.Ok (Some device_package))
    by reflexivity.
  assert (H3 : forallb known_diff_type (diffs db device "c1" "c2") = true)
    by reflexivity.
  split_and!; [exact H1|exact H2|exact H3|].
  exact (proj2 (package_counts db "c1" "c2" ct_device device device_package H1 H2) H3).
Defined.

Lemma package_rows_come_from_diffs_witness :
  ct_model_class ct_device = Some device
  /\ diff_package db "c1" "c2" ct_device = Py.Ok (Some device_package)
  /\ row_9 ∈ table_rows (table device_package)
  /\ exists d,
       d ∈ diffs db device "c1" "c2"
       /\ (to_id d = Some (row_pk row_9)
           \/ (from_id d = Some (row_pk row_9) /\ diff_type d = "removed")).
Proof.
  assert (H1 : ct_model_class ct_device = Some device) by reflexivity.
  assert (H2 : diff_package db "c1" "c2" ct_device = Py.Ok (Some device_package))
    by reflexivity.
  assert (H3 : row_9 ∈ table_rows (table device_package)).
  { right. right. left. }
  split_and!; [exact H1|exact H2|exact H3|].
  exact (package_rows_come_from_diffs db "c1" "c2" ct_device device device_package
           row_9 H1 H2 H3).
Defined.

Lemma package_rows_stable_witness :
  ct_model_class ct_device = Some device
  /\ diff_package db "c1" "c2" ct_device = Py.Ok (Some device_package)
  /\ List.filter (has_pk 7) (table_rows (table device_package))
     = List.filter (has_pk 7) (to_queryset db device "c1" "c2")
       ++ List.filter (has_pk 7) (from_queryset db device "c1" "c2").
Proof.
  assert (H1 : ct_model_class ct_device = Some device) by reflexivity.
  assert (H2 : diff_package db "c1" "c2" ct_device = Py.Ok (Some device_package))
    by reflexivity.
  split_and!; [exact H1|exact H2|].
  exact (package_rows_stable db "c1" "c2" ct_device device device_package 7 H1 H2).
Defined.

End MoreConcreteRuns.
